(** * KoboldProvider: a shallow embedding of [agixt/providers/kobold.py]

    The module is a client adapter for a KoboldCpp text-generation server.
    It holds three helpers ([clean_url], [is_valid_float],
    [is_valid_sample_order]) and the class [KoboldProvider] with its
    constructor [__init__] and its single operation [inference].

    Conventions of the embedding.
    - A Python [str] is a [string]: one [ascii] per character, for the
      characters below U+0100.
    - A Python [int] is a [Z]; a Python [float] is a [spec_float] read at
      binary64 (precision 53, maximal exponent 1024).
    - A constructor parameter is modelled at its annotated type, except
      where the code inspects the type at run time ([isinstance], [in])
      or where the default contradicts the annotation: such a parameter
      ranges over all values [pyval].
    - Exceptions are values of [exn]; code that may raise returns a
      [result]. [inference] runs in a state-and-error monad whose state is
      the object [self].
    - The network is not part of the module: [inference] is parametrised
      by the outcome of [requests.post]. *)

From Stdlib Require Import ZArith List String Ascii Bool Lia Permutation.
From Stdlib Require Import Floats.SpecFloat.
From Stdlib Require Import Decimal DecimalString.
Import ListNotations.

Open Scope string_scope.
Open Scope Z_scope.

(** ** Python strings *)

Module Str.

Fixpoint take (n : nat) (s : string) : string :=
  match n, s with
  | S n', String c r => String c (take n' r)
  | _, _ => EmptyString
  end.

Fixpoint drop (n : nat) (s : string) : string :=
  match n, s with
  | S n', String _ r => drop n' r
  | _, _ => s
  end.

Definition len (s : string) : Z := Z.of_nat (String.length s).

(** [s[:k]], with Python's reading of a negative or too large bound. *)
Definition slice_to (s : string) (k : Z) : string :=
  let stop := if k <? 0 then Z.max 0 (len s + k) else Z.min k (len s) in
  take (Z.to_nat stop) s.

(** [s.endswith(suffix)] *)
Definition endswith (s suffix : string) : bool :=
  (String.length suffix <=? String.length s)%nat
  && String.eqb (drop (String.length s - String.length suffix) s) suffix.

(** [c.isspace()] for the characters below U+0100. *)
Definition isspace (c : ascii) : bool :=
  let n := nat_of_ascii c in
  ((9 <=? n) && (n <=? 13) || (28 <=? n) && (n <=? 32)
   || (n =? 133) || (n =? 160))%nat.

Fixpoint lstrip (s : string) : string :=
  match s with
  | EmptyString => EmptyString
  | String c r => if isspace c then lstrip r else s
  end.

Fixpoint rstrip (s : string) : string :=
  match s with
  | EmptyString => EmptyString
  | String c r =>
      match rstrip r with
      | EmptyString => if isspace c then EmptyString else String c EmptyString
      | r' => String c r'
      end
  end.

Definition strip (s : string) : string := rstrip (lstrip s).

(** [needle in s] for two strings: substring test. *)
Fixpoint contains (needle s : string) : bool :=
  String.prefix needle s
  || match s with
     | EmptyString => false
     | String _ r => contains needle r
     end.

Definition nonempty (s : string) : bool :=
  match s with EmptyString => false | _ => true end.

End Str.

(** ** Python values *)

Definition float := spec_float.

(** Literals of the source, as binary64 values. *)
Definition f0_0 : float := S754_zero false.
Definition f1_0 : float := S754_finite false 4503599627370496 (-52).
Definition f1_1 : float := S754_finite false 4953959590107546 (-52).
Definition f0_7 : float := S754_finite false 6305039478318694 (-53).
Definition f0_92 : float := S754_finite false 8286623314361713 (-53).
Definition f5_0 : float := S754_finite false 5629499534213120 (-50).
Definition f0_1 : float := S754_finite false 7205759403792794 (-56).

(** The numeric tower: [bool] is a subclass of [int]; [float] is not. *)
Inductive num : Type :=
| NBool (b : bool)
| NInt (z : Z)
| NFloat (f : float).

#[warnings="-register-all"]
Inductive pyval : Type :=
| VNone
| VNum (n : num)
| VStr (s : string)
| VList (l : list pyval)
| VDict (d : list (string * pyval)).

Definition VInt (z : Z) : pyval := VNum (NInt z).
Definition VFloat (f : float) : pyval := VNum (NFloat f).
Definition VBool (b : bool) : pyval := VNum (NBool b).

(** A [dict] with string keys, in insertion order. *)
Definition dict := list (string * pyval).

Fixpoint dict_get (k : string) (d : dict) : option pyval :=
  match d with
  | [] => None
  | (k', v) :: r => if String.eqb k' k then Some v else dict_get k r
  end.

(** [d[k] = v] *)
Fixpoint dict_set (k : string) (v : pyval) (d : dict) : dict :=
  match d with
  | [] => [(k, v)]
  | (k', v') :: r =>
      if String.eqb k' k then (k, v) :: r else (k', v') :: dict_set k v r
  end.

Definition dict_has (k : string) (d : dict) : bool :=
  match dict_get k d with Some _ => true | None => false end.

(** ** Exceptions

    [RequestException] stands for what [requests.post] itself raises when
    no response arrives; [HTTPError] is raised by [raise_for_status] and
    [JSONDecodeError] by [response.json()]. *)

Inductive exn : Type :=
| TypeError
| AttributeError
| KeyError
| IndexError
| OverflowError
| ValueError (msg : string)
| RequestException
| HTTPError (status : Z)
| JSONDecodeError.

Definition result (A : Type) : Type := (exn + A)%type.

Definition ok {A} (a : A) : result A := inr a.
Definition raise {A} (e : exn) : result A := inl e.

Definition rbind {A B} (r : result A) (k : A -> result B) : result B :=
  match r with
  | inl e => inl e
  | inr a => k a
  end.

(** ** Numbers *)

(** Exact comparison of a float with an integer; [None] for NaN. *)
Definition float_compare_int (f : float) (k : Z) : option comparison :=
  match f with
  | S754_nan => None
  | S754_zero _ => Some (0 ?= k)
  | S754_infinity s => Some (if s then Lt else Gt)
  | S754_finite s m e =>
      let sm := cond_Zopp s (Zpos m) in
      Some (if 0 <=? e then sm * 2 ^ e ?= k else sm ?= k * 2 ^ (- e))
  end.

Definition num_compare_int (n : num) (k : Z) : option comparison :=
  match n with
  | NBool b => Some (Z.b2z b ?= k)
  | NInt z => Some (z ?= k)
  | NFloat f => float_compare_int f k
  end.

(** [n == k], [n >= k], [n <= k], [n > k] for an integer literal [k]. *)
Definition num_eq (n : num) (k : Z) : bool :=
  match num_compare_int n k with Some Eq => true | _ => false end.
Definition num_ge (n : num) (k : Z) : bool :=
  match num_compare_int n k with Some Eq | Some Gt => true | _ => false end.
Definition num_le (n : num) (k : Z) : bool :=
  match num_compare_int n k with Some Eq | Some Lt => true | _ => false end.
Definition num_gt (n : num) (k : Z) : bool :=
  match num_compare_int n k with Some Gt => true | _ => false end.

(** Truth value of a number: false exactly when it equals zero. *)
Definition num_truthy (n : num) : bool := negb (num_eq n 0).

(** [float(n)] *)
Definition py_float (n : num) : result float :=
  match n with
  | NBool b => ok (if b then f1_0 else f0_0)
  | NInt z =>
      match binary_normalize 53 1024 z 0 false with
      | S754_infinity _ => raise OverflowError
      | f => ok f
      end
  | NFloat f => ok f
  end.

(** [int(n)]: truncation towards zero for a float. *)
Definition py_int (n : num) : result Z :=
  match n with
  | NBool b => ok (Z.b2z b)
  | NInt z => ok z
  | NFloat f =>
      match f with
      | S754_nan => raise (ValueError "cannot convert float NaN to integer")
      | S754_infinity _ => raise OverflowError
      | S754_zero _ => ok 0
      | S754_finite s m e =>
          ok (cond_Zopp s (if 0 <=? e then Zpos m * 2 ^ e
                           else Zpos m / 2 ^ (- e)))
      end
  end.

Definition isinstance_float (v : pyval) : bool :=
  match v with VNum (NFloat _) => true | _ => false end.

Definition isinstance_int (v : pyval) : bool :=
  match v with VNum (NBool _) | VNum (NInt _) => true | _ => false end.

(** [v == k] for an integer literal: only numbers compare equal to it. *)
Definition py_eq_int (v : pyval) (k : Z) : bool :=
  match v with VNum n => num_eq n k | _ => false end.

(** ** Module-level helpers *)

Definition clean_url (url : string) : string :=
  if Str.endswith url "/api" then Str.slice_to url (-4)
  else if Str.endswith url "/" then Str.slice_to url (-1)
  else url.

Definition is_valid_float (value : pyval) (no_range : bool) : bool :=
  if py_eq_int value 0 || py_eq_int value 1 then true
  else
    match value with
    | VNum (NFloat f) =>
        if no_range then num_ge (NFloat f) 0
        else num_ge (NFloat f) 0 && num_le (NFloat f) 1
    | _ => false
    end.

(** Sets of integers, as lists of members; equality is mutual inclusion. *)
Definition intset := list Z.

Definition range (n : nat) : intset := map Z.of_nat (seq 0 n).

Definition mem (z : Z) (s : intset) : bool := existsb (Z.eqb z) s.

Definition set_eqb (a b : intset) : bool :=
  forallb (fun z => mem z b) a && forallb (fun z => mem z a) b.

(** The integer denoted by an instance of [int]. *)
Definition int_value (v : pyval) : Z :=
  match v with
  | VNum (NBool b) => Z.b2z b
  | VNum (NInt z) => z
  | _ => 0
  end.

(** [set(value)] for a list of instances of [int]. *)
Definition py_set (l : list pyval) : intset := map int_value l.

(** What [is_valid_sample_order] returns: a [bool], or the set that the
    [or] of its last line evaluates to. *)
Inductive verdict : Type :=
| Flag (b : bool)
| SetOf (s : intset).

Definition verdict_truthy (v : verdict) : bool :=
  match v with
  | Flag b => b
  | SetOf s => match s with [] => false | _ => true end
  end.

(** [a or b] *)
Definition py_or (a b : verdict) : verdict :=
  if verdict_truthy a then a else b.

Definition is_valid_sample_order (value : pyval) : verdict :=
  match value with
  | VList l =>
      if forallb isinstance_int l
      then py_or (Flag (set_eqb (py_set l) (range 6))) (SetOf (range 7))
      else Flag false
  | _ => Flag false
  end.

(** ** The class [KoboldProvider] *)

(** The keyword arguments of the constructor. *)
Module kw.

Record t : Type := make {
  AI_PROVIDER_URI : string;
  AI_MODEL : string;
  PROMPT_PREFIX : string;
  PROMPT_SUFFIX : string;
  MAX_CONTEXT_LENGTH : Z;
  MAX_LENGTH : Z;
  REP_PEN : pyval;
  REP_PEN_RANGE : Z;
  SAMPLE_ORDER : pyval;
  SAMPLER_SEED : Z;
  STOP_SEQUENCE : option (list string);
  TEMPERATURE : pyval;
  TFS : pyval;
  TOP_A : pyval;
  TOP_K : pyval;
  TOP_P : pyval;
  MIN_P : pyval;
  TYPICAL : pyval;
  USE_DEFAULT_BADWORDSIDS : bool;
  MIROSTAT : num;
  MIROSTAT_TAU : float;
  MIROSTAT_ETA : float;
  GRAMMAR : string;
  GRAMMAR_RETAIN_STATE : bool;
  MEMORY : string;
  TRIM_STOP : bool
}.

(** The defaults of the signature. *)
Definition defaults : t := {|
  AI_PROVIDER_URI := "";
  AI_MODEL := "default";
  PROMPT_PREFIX := "";
  PROMPT_SUFFIX := "";
  MAX_CONTEXT_LENGTH := 4096;
  MAX_LENGTH := 80;
  REP_PEN := VFloat f1_1;
  REP_PEN_RANGE := 320;
  SAMPLE_ORDER := VList (map VInt [6; 0; 1; 3; 4; 2; 5]);
  SAMPLER_SEED := -1;
  STOP_SEQUENCE := None;
  TEMPERATURE := VFloat f0_7;
  TFS := VInt 1;
  TOP_A := VInt 0;
  TOP_K := VInt 100;
  TOP_P := VFloat f0_92;
  MIN_P := VInt 0;
  TYPICAL := VInt 1;
  USE_DEFAULT_BADWORDSIDS := false;
  MIROSTAT := NFloat f0_0;
  MIROSTAT_TAU := f5_0;
  MIROSTAT_ETA := f0_1;
  GRAMMAR := "";
  GRAMMAR_RETAIN_STATE := false;
  MEMORY := "";
  TRIM_STOP := false
|}.

End kw.

(** The attributes of an instance. *)
Record KoboldProvider : Type := mkKoboldProvider {
  AI_PROVIDER_URI : string;
  AI_MODEL : string;
  PROMPT_PREFIX : string;
  PROMPT_SUFFIX : string;
  MAX_CONTEXT_LENGTH : Z;
  MAX_LENGTH : Z;
  REP_PEN : num;
  REP_PEN_RANGE : Z;
  SAMPLE_ORDER : pyval;
  SAMPLER_SEED : Z;
  STOP_SEQUENCE : option (list string);
  TEMPERATURE : num;
  TFS : num;
  TOP_A : num;
  TOP_K : num;
  TOP_P : num;
  MIN_P : num;
  TYPICAL : num;
  USE_DEFAULT_BADWORDSIDS : bool;
  MIROSTAT : num;
  MIROSTAT_TAU : float;
  MIROSTAT_ETA : float;
  GRAMMAR : string;
  GRAMMAR_RETAIN_STATE : bool;
  MEMORY : string;
  TRIM_STOP : bool
}.

(** [v if valid else default], for a test [valid] that only numbers
    pass (lemmas [is_valid_float_num], [rep_pen_guard_num] and
    [top_k_guard_num] below). *)
Definition keep_num (v : pyval) (valid : bool) (default : num) : num :=
  match v with
  | VNum n => if valid then n else default
  | _ => default
  end.

(** [isinstance(v, float) and v >= 1]: the comparison is evaluated for a
    float only. *)
Definition rep_pen_guard (v : pyval) : bool :=
  isinstance_float v && match v with VNum n => num_ge n 1 | _ => false end.

(** [isinstance(v, int) and v >= 0] *)
Definition top_k_guard (v : pyval) : bool :=
  isinstance_int v && match v with VNum n => num_ge n 0 | _ => false end.

Definition default_sample_order : pyval :=
  VList (map VInt [6; 0; 1; 3; 4; 2; 5]).

Definition __init__ (a : kw.t) : KoboldProvider := {|
  AI_PROVIDER_URI :=
    if Str.nonempty (kw.AI_PROVIDER_URI a) then clean_url (kw.AI_PROVIDER_URI a)
    else "http://host.docker.internal:5001";
  AI_MODEL := kw.AI_MODEL a;
  PROMPT_PREFIX :=
    if Str.nonempty (kw.PROMPT_PREFIX a) then kw.PROMPT_PREFIX a else "";
  PROMPT_SUFFIX :=
    if Str.nonempty (kw.PROMPT_SUFFIX a) then kw.PROMPT_SUFFIX a else "";
  MAX_CONTEXT_LENGTH :=
    if negb (kw.MAX_CONTEXT_LENGTH a =? 0) then kw.MAX_CONTEXT_LENGTH a
    else 4096;
  MAX_LENGTH := if negb (kw.MAX_LENGTH a =? 0) then kw.MAX_LENGTH a else 80;
  REP_PEN := keep_num (kw.REP_PEN a) (rep_pen_guard (kw.REP_PEN a)) (NFloat f1_1);
  REP_PEN_RANGE :=
    if kw.REP_PEN_RANGE a >=? 0 then kw.REP_PEN_RANGE a else 320;
  SAMPLE_ORDER :=
    if verdict_truthy (is_valid_sample_order (kw.SAMPLE_ORDER a))
    then kw.SAMPLE_ORDER a else default_sample_order;
  SAMPLER_SEED :=
    if (-1 <=? kw.REP_PEN_RANGE a) && (kw.REP_PEN_RANGE a <=? 999999)
    then kw.SAMPLER_SEED a else -1;
  STOP_SEQUENCE := kw.STOP_SEQUENCE a;
  TEMPERATURE :=
    keep_num (kw.TEMPERATURE a) (is_valid_float (kw.TEMPERATURE a) false)
      (NFloat f0_7);
  TFS := keep_num (kw.TFS a) (is_valid_float (kw.TFS a) false) (NFloat f1_0);
  TOP_A :=
    keep_num (kw.TOP_A a) (is_valid_float (kw.TOP_A a) false) (NFloat f0_0);
  TOP_K := keep_num (kw.TOP_K a) (top_k_guard (kw.TOP_K a)) (NInt 100);
  TOP_P :=
    keep_num (kw.TOP_P a) (is_valid_float (kw.TOP_P a) false) (NFloat f0_92);
  MIN_P :=
    keep_num (kw.MIN_P a) (is_valid_float (kw.MIN_P a) false) (NFloat f0_0);
  TYPICAL :=
    keep_num (kw.TYPICAL a) (is_valid_float (kw.TYPICAL a) false)
      (NFloat f1_0);
  USE_DEFAULT_BADWORDSIDS :=
    if kw.USE_DEFAULT_BADWORDSIDS a then kw.USE_DEFAULT_BADWORDSIDS a
    else false;
  MIROSTAT := if num_truthy (kw.MIROSTAT a) then kw.MIROSTAT a else NInt 0;
  MIROSTAT_TAU :=
    if num_truthy (NFloat (kw.MIROSTAT_TAU a)) then kw.MIROSTAT_TAU a
    else f5_0;
  MIROSTAT_ETA :=
    if num_truthy (NFloat (kw.MIROSTAT_ETA a)) then kw.MIROSTAT_ETA a
    else f0_1;
  GRAMMAR := if Str.nonempty (kw.GRAMMAR a) then kw.GRAMMAR a else "";
  GRAMMAR_RETAIN_STATE :=
    if kw.GRAMMAR_RETAIN_STATE a then kw.GRAMMAR_RETAIN_STATE a else false;
  MEMORY := if Str.nonempty (kw.MEMORY a) then kw.MEMORY a else "";
  TRIM_STOP := if kw.TRIM_STOP a then kw.TRIM_STOP a else false
|}.

(** ** The state-and-error monad of a method call

    A method runs on the object [self]: it returns a value or raises, and
    leaves the object in a state of its own. *)

Definition M (A : Type) : Type := KoboldProvider -> result A * KoboldProvider.

Definition ret {A} (a : A) : M A := fun self => (ok a, self).

Definition bind {A B} (m : M A) (k : A -> M B) : M B :=
  fun self =>
    match m self with
    | (inl e, self') => (inl e, self')
    | (inr a, self') => k a self'
    end.

(** [self.f]: reading an attribute. *)
Definition attr {A} (f : KoboldProvider -> A) : M A :=
  fun self => (ok (f self), self).

(** A computation that does not touch the object. *)
Definition lift {A} (r : result A) : M A := fun self => (r, self).

Notation "x <- m ;; k" := (bind m (fun x => k))
  (at level 61, m at next level, right associativity).

(** ** The transport: [requests] *)

(** A response, as the code uses it: its status and its body, parsed
    ([None] when the body is not JSON). *)
Record Response : Type := mkResponse {
  status_code : Z;
  body : option pyval
}.

(** [response.raise_for_status()] raises for the statuses 400 to 599. *)
Definition raise_for_status (r : Response) : result unit :=
  if (400 <=? status_code r) && (status_code r <? 600)
  then raise (HTTPError (status_code r))
  else ok tt.

(** [response.json()] *)
Definition json (r : Response) : result pyval :=
  match body r with
  | Some j => ok j
  | None => raise JSONDecodeError
  end.

(** [str(response)] *)
Definition Response_str (r : Response) : string :=
  "<Response [" ++ NilZero.string_of_int (Z.to_int (status_code r)) ++ "]>".

(** [requests.post(url, json=params)]: a response, or [None] when the
    request fails before any response arrives. *)
Definition transport : Type := string -> dict -> option Response.

(** ** Dynamic operations on the decoded body *)

(** [key in v] for a string [key]. *)
Definition py_in (key : string) (v : pyval) : result bool :=
  match v with
  | VDict d => ok (dict_has key d)
  | VList l =>
      ok (existsb (fun x => match x with
                            | VStr s => String.eqb s key
                            | _ => false
                            end) l)
  | VStr s => ok (Str.contains key s)
  | _ => raise TypeError
  end.

(** [v[key]] for a string [key]. *)
Definition py_getitem (v : pyval) (key : string) : result pyval :=
  match v with
  | VDict d =>
      match dict_get key d with
      | Some x => ok x
      | None => raise KeyError
      end
  | _ => raise TypeError
  end.

(** [len(v)] *)
Definition py_len (v : pyval) : result Z :=
  match v with
  | VDict d => ok (Z.of_nat (List.length d))
  | VList l => ok (Z.of_nat (List.length l))
  | VStr s => ok (Str.len s)
  | _ => raise TypeError
  end.

(** [v[0]]; a decoded object has string keys only, so [0] is never one. *)
Definition py_getitem0 (v : pyval) : result pyval :=
  match v with
  | VList (x :: _) => ok x
  | VList [] => raise IndexError
  | VStr (String c _) => ok (VStr (String c EmptyString))
  | VStr EmptyString => raise IndexError
  | VDict _ => raise KeyError
  | _ => raise TypeError
  end.

(** [v.strip()] *)
Definition py_strip (v : pyval) : result string :=
  match v with
  | VStr s => ok (Str.strip s)
  | _ => raise AttributeError
  end.

(** ** [inference] *)

(** [if c: update]: a conditional statement without [else], acting on
    the dictionary under construction. *)
Definition when (c : bool) (update : dict -> dict) (params : dict) : dict :=
  if c then update params else params.

(** Lines 98 to 138: the request payload. *)
Definition build_params (prompt : string) (tokens : Z) : M dict :=
  max_length <- attr MAX_LENGTH ;;
  let MAX_LENGTH := max_length - tokens in
  prefix <- attr PROMPT_PREFIX ;;
  suffix <- attr PROMPT_SUFFIX ;;
  let prompt := prefix ++ prompt ++ suffix in
  max_context_length <- attr MAX_CONTEXT_LENGTH ;;
  rep_pen <- (x <- attr REP_PEN ;; lift (py_float x)) ;;
  rep_pen_range <- attr REP_PEN_RANGE ;;
  sampler_order <- attr SAMPLE_ORDER ;;
  temperature <- (x <- attr TEMPERATURE ;; lift (py_float x)) ;;
  tfs <- (x <- attr TFS ;; lift (py_float x)) ;;
  top_a <- (x <- attr TOP_A ;; lift (py_float x)) ;;
  top_k <- (x <- attr TOP_K ;; lift (py_int x)) ;;
  top_p <- (x <- attr TOP_P ;; lift (py_float x)) ;;
  min_p <- (x <- attr MIN_P ;; lift (py_float x)) ;;
  typical <- (x <- attr TYPICAL ;; lift (py_float x)) ;;
  let params : dict :=
    [ ("prompt", VStr prompt);
      ("max_context_length", VInt max_context_length);
      ("MAX_LENGTH", VInt MAX_LENGTH);
      ("rep_pen", VFloat rep_pen);
      ("rep_pen_range", VInt rep_pen_range);
      ("sampler_order", sampler_order);
      ("temperature", VFloat temperature);
      ("tfs", VFloat tfs);
      ("top_a", VFloat top_a);
      ("top_k", VInt top_k);
      ("top_p", VFloat top_p);
      ("min_p", VFloat min_p);
      ("typical", VFloat typical) ] in
  sampler_seed <- attr SAMPLER_SEED ;;
  let params :=
    when (sampler_seed >? 0)
      (dict_set "sampler_seed" (VInt sampler_seed)) params in
  use_default_badwordsids <- attr USE_DEFAULT_BADWORDSIDS ;;
  let params :=
    when use_default_badwordsids
      (dict_set "use_default_badwordsids" (VBool use_default_badwordsids))
      params in
  memory <- attr MEMORY ;;
  let params :=
    when (Str.nonempty memory) (dict_set "memory" (VStr memory)) params in
  grammar <- attr GRAMMAR ;;
  grammar_retain_state <- attr GRAMMAR_RETAIN_STATE ;;
  let params :=
    when (Str.nonempty grammar)
      (fun params =>
         dict_set "grammar_retain_state" (VBool grammar_retain_state)
           (dict_set "grammar" (VStr grammar) params))
      params in
  mirostat <- attr MIROSTAT ;;
  mirostat_tau <- attr MIROSTAT_TAU ;;
  mirostat_eta <- attr MIROSTAT_ETA ;;
  let params :=
    when (num_gt mirostat 0)
      (fun params =>
         dict_set "mirostat_eta" (VFloat mirostat_eta)
           (dict_set "mirostat_tau" (VFloat mirostat_tau)
              (dict_set "mirostat" (VNum mirostat) params)))
      params in
  stop_sequence <- attr STOP_SEQUENCE ;;
  trim_stop <- attr TRIM_STOP ;;
  let params :=
    match stop_sequence with
    | Some seqs =>
        when trim_stop (dict_set "trim_stop" (VBool trim_stop))
          (dict_set "stop_sequence" (VList (map VStr seqs)) params)
    | None => params
    end in
  ret params.

(** Lines 144 to 148: the test on the shape of the decoded body, with the
    short-circuit of [and]. *)
Definition has_text (json_response : pyval) : result bool :=
  rbind (py_in "results" json_response) (fun has_results =>
  if has_results then
    rbind (py_getitem json_response "results") (fun results =>
    rbind (py_len results) (fun n =>
    if n >? 0 then
      rbind (py_getitem0 results) (fun first => py_in "text" first)
    else ok false))
  else ok false).

(** The body of the loop at lines 152 to 154. *)
Definition strip_stop (text sequence : string) : string :=
  if Str.endswith text sequence
  then Str.rstrip (Str.slice_to text (- Str.len sequence))
  else text.

(** Lines 142 to 160: decoding the response. *)
Definition extract (response : Response) : M string :=
  json_response <- lift (json response) ;;
  shaped <- lift (has_text json_response) ;;
  if shaped then
    text <- lift (rbind (py_getitem json_response "results") (fun results =>
                  rbind (py_getitem0 results) (fun first =>
                  rbind (py_getitem first "text") py_strip))) ;;
    stop_sequence <- attr STOP_SEQUENCE ;;
    match stop_sequence with
    | Some seqs => ret (fold_left strip_stop seqs text)
    | None => ret text
    end
  else
    lift (raise (ValueError ("Unexpected response format from Kobold API:  "
                             ++ Response_str response))).

Definition inference (requests_post : transport) (prompt : string)
    (tokens : Z) : M string :=
  params <- build_params prompt tokens ;;
  uri <- attr AI_PROVIDER_URI ;;
  match requests_post (uri ++ "/api/v1/generate") params with
  | None => lift (raise RequestException)
  | Some response =>
      _ <- lift (raise_for_status response) ;;
      extract response
  end.

(** ** Vocabulary of the specification *)

(** A float that is at least 1. *)
Definition float_ge_1 (v : pyval) : Prop :=
  exists f, v = VFloat f /\ num_ge (NFloat f) 1 = true.

(** A list that is a permutation of the indices 0 to 6. *)
Definition is_permutation_0_6 (v : pyval) : Prop :=
  exists l, v = VList (map VInt l) /\ Permutation l [0; 1; 2; 3; 4; 5; 6].

(** A list all of whose elements are instances of [int]. *)
Definition all_int (l : list pyval) : Prop :=
  Forall (fun x => isinstance_int x = true) l.

(** The integers of [l] are exactly the indices below [n]. *)
Definition members_below (l : list pyval) (n : Z) : Prop :=
  forall z, In z (map int_value l) <-> 0 <= z < n.

(** The numeric attributes that [inference] converts can be converted.
    The constructor establishes this (lemma [init_convertible]). *)
Definition convertible (self : KoboldProvider) : Prop :=
  (exists f, py_float (REP_PEN self) = ok f) /\
  (exists f, py_float (TEMPERATURE self) = ok f) /\
  (exists f, py_float (TFS self) = ok f) /\
  (exists f, py_float (TOP_A self) = ok f) /\
  (exists k, py_int (TOP_K self) = ok k) /\
  (exists f, py_float (TOP_P self) = ok f) /\
  (exists f, py_float (MIN_P self) = ok f) /\
  (exists f, py_float (TYPICAL self) = ok f).

(** A method call leaves the object as it found it. *)
Definition preserves_self {A} (m : M A) : Prop :=
  forall self, snd (m self) = self.

(** The same client with another TRIM_STOP flag. *)
Definition set_TRIM_STOP (b : bool) (self : KoboldProvider) : KoboldProvider :=
  let 'mkKoboldProvider a1 a2 a3 a4 a5 a6 a7 a8 a9 a10 a11 a12 a13 a14 a15
        a16 a17 a18 a19 a20 a21 a22 a23 a24 a25 _ := self in
  mkKoboldProvider a1 a2 a3 a4 a5 a6 a7 a8 a9 a10 a11 a12 a13 a14 a15
    a16 a17 a18 a19 a20 a21 a22 a23 a24 a25 b.

(** The key [k] is in the payload exactly when [P] holds, and then with
    the value [v]. *)
Definition carries (d : dict) (k : string) (P : Prop) (v : pyval) : Prop :=
  (P -> dict_get k d = Some v) /\ (~ P -> dict_get k d = None).

(** The status of a response indicates failure. *)
Definition failed (r : Response) : Prop := 400 <= status_code r < 600.

(** The decoded body is an object with a non-empty [results] array whose
    first element is an object with a [text] field of value [v]. *)
Definition results_text (j : pyval) (v : pyval) : Prop :=
  exists d e rest,
    j = VDict d /\ dict_get "results" d = Some (VList (VDict e :: rest)) /\
    dict_get "text" e = Some v.

(** The decoded body is an object that lacks such a field: it has no
    [results], or an empty array, or a first element without [text]. *)
Definition lacks_results_text (j : pyval) : Prop :=
  exists d,
    j = VDict d /\
    (dict_get "results" d = None \/
     dict_get "results" d = Some (VList []) \/
     exists e rest, dict_get "results" d = Some (VList (VDict e :: rest)) /\
                    dict_get "text" e = None).

(** Post-processing as the specification words it: only the first stop
    sequence, in configured order, that is a trailing suffix of the text is
    removed, and the result is trimmed on the right. *)
Fixpoint strip_first_stop (seqs : list string) (text : string) : string :=
  match seqs with
  | [] => text
  | s :: rest =>
      if Str.endswith text s
      then Str.rstrip (Str.slice_to text (- Str.len s))
      else strip_first_stop rest text
  end.

(** Post-processing as a relation between the trimmed text and the result:
    each stop sequence, at its turn, is removed when the current text ends
    in it, and the text is trimmed on the right after each removal. *)
Inductive strips : list string -> string -> string -> Prop :=
| strips_done (text : string) : strips [] text text
| strips_remove (s : string) (rest : list string) (u out : string) :
    s <> "" -> strips rest (Str.rstrip u) out -> strips (s :: rest) (u ++ s) out
| strips_keep (s : string) (rest : list string) (text out : string) :
    (forall u, text <> u ++ s) -> strips rest text out ->
    strips (s :: rest) text out.

(** The errors raised while the body is decoded and taken apart. *)
Definition decoding_error (e : exn) : Prop :=
  e = JSONDecodeError \/ e = TypeError \/ e = KeyError \/ e = IndexError
  \/ e = AttributeError.

(** ** Concrete arguments, clients and responses

    Used by the examples that accompany the theorems. *)

Module Ex.

(** [KoboldProvider()] with some keyword arguments given. *)
Definition with_REP_PEN (v : pyval) (a : kw.t) : kw.t :=
  let 'kw.make a1 a2 a3 a4 a5 a6 _ a8 a9 a10 a11 a12 a13 a14 a15 a16 a17
        a18 a19 a20 a21 a22 a23 a24 a25 a26 := a in
  kw.make a1 a2 a3 a4 a5 a6 v a8 a9 a10 a11 a12 a13 a14 a15 a16 a17
    a18 a19 a20 a21 a22 a23 a24 a25 a26.

Definition with_REP_PEN_RANGE (v : Z) (a : kw.t) : kw.t :=
  let 'kw.make a1 a2 a3 a4 a5 a6 a7 _ a9 a10 a11 a12 a13 a14 a15 a16 a17
        a18 a19 a20 a21 a22 a23 a24 a25 a26 := a in
  kw.make a1 a2 a3 a4 a5 a6 a7 v a9 a10 a11 a12 a13 a14 a15 a16 a17
    a18 a19 a20 a21 a22 a23 a24 a25 a26.

Definition with_SAMPLE_ORDER (v : pyval) (a : kw.t) : kw.t :=
  let 'kw.make a1 a2 a3 a4 a5 a6 a7 a8 _ a10 a11 a12 a13 a14 a15 a16 a17
        a18 a19 a20 a21 a22 a23 a24 a25 a26 := a in
  kw.make a1 a2 a3 a4 a5 a6 a7 a8 v a10 a11 a12 a13 a14 a15 a16 a17
    a18 a19 a20 a21 a22 a23 a24 a25 a26.

Definition with_SAMPLER_SEED (v : Z) (a : kw.t) : kw.t :=
  let 'kw.make a1 a2 a3 a4 a5 a6 a7 a8 a9 _ a11 a12 a13 a14 a15 a16 a17
        a18 a19 a20 a21 a22 a23 a24 a25 a26 := a in
  kw.make a1 a2 a3 a4 a5 a6 a7 a8 a9 v a11 a12 a13 a14 a15 a16 a17
    a18 a19 a20 a21 a22 a23 a24 a25 a26.

Definition with_STOP_SEQUENCE (v : option (list string)) (a : kw.t) : kw.t :=
  let 'kw.make a1 a2 a3 a4 a5 a6 a7 a8 a9 a10 _ a12 a13 a14 a15 a16 a17
        a18 a19 a20 a21 a22 a23 a24 a25 a26 := a in
  kw.make a1 a2 a3 a4 a5 a6 a7 a8 a9 a10 v a12 a13 a14 a15 a16 a17
    a18 a19 a20 a21 a22 a23 a24 a25 a26.

Definition with_MIROSTAT (v : num) (a : kw.t) : kw.t :=
  let 'kw.make a1 a2 a3 a4 a5 a6 a7 a8 a9 a10 a11 a12 a13 a14 a15 a16 a17
        a18 a19 _ a21 a22 a23 a24 a25 a26 := a in
  kw.make a1 a2 a3 a4 a5 a6 a7 a8 a9 a10 a11 a12 a13 a14 a15 a16 a17
    a18 a19 v a21 a22 a23 a24 a25 a26.

Definition with_GRAMMAR (v : string) (a : kw.t) : kw.t :=
  let 'kw.make a1 a2 a3 a4 a5 a6 a7 a8 a9 a10 a11 a12 a13 a14 a15 a16 a17
        a18 a19 a20 a21 a22 _ a24 a25 a26 := a in
  kw.make a1 a2 a3 a4 a5 a6 a7 a8 a9 a10 a11 a12 a13 a14 a15 a16 a17
    a18 a19 a20 a21 a22 v a24 a25 a26.

Definition with_MEMORY (v : string) (a : kw.t) : kw.t :=
  let 'kw.make a1 a2 a3 a4 a5 a6 a7 a8 a9 a10 a11 a12 a13 a14 a15 a16 a17
        a18 a19 a20 a21 a22 a23 a24 _ a26 := a in
  kw.make a1 a2 a3 a4 a5 a6 a7 a8 a9 a10 a11 a12 a13 a14 a15 a16 a17
    a18 a19 a20 a21 a22 a23 a24 v a26.

Definition with_TRIM_STOP (v : bool) (a : kw.t) : kw.t :=
  let 'kw.make a1 a2 a3 a4 a5 a6 a7 a8 a9 a10 a11 a12 a13 a14 a15 a16 a17
        a18 a19 a20 a21 a22 a23 a24 a25 _ := a in
  kw.make a1 a2 a3 a4 a5 a6 a7 a8 a9 a10 a11 a12 a13 a14 a15 a16 a17
    a18 a19 a20 a21 a22 a23 a24 a25 v.

Definition ints (l : list Z) : pyval := VList (map VInt l).

(** A sampler order of six samplers. *)
Definition order6 : kw.t := with_SAMPLE_ORDER (ints [0; 1; 2; 3; 4; 5]) kw.defaults.

(** A sampler order that names no sampler at all. *)
Definition order_bad : kw.t := with_SAMPLE_ORDER (ints [7; 7]) kw.defaults.

(** A sampler order that is not a list. *)
Definition order_str : kw.t := with_SAMPLE_ORDER (VStr "6,0,1,3,4,2,5") kw.defaults.

Definition order7 : kw.t := with_SAMPLE_ORDER (ints [0; 1; 2; 3; 4; 5; 6]) kw.defaults.

(** A valid seed with a range above the bound; a seed with a range inside. *)
Definition seed_range_out : kw.t :=
  with_SAMPLER_SEED 42 (with_REP_PEN_RANGE 1000000 kw.defaults).
Definition seed_range_in : kw.t :=
  with_SAMPLER_SEED 42 (with_REP_PEN_RANGE 320 kw.defaults).

Definition f2_0 : float := S754_finite false 4503599627370496 (-51).
Definition rep_pen_2 : kw.t := with_REP_PEN (VFloat f2_0) kw.defaults.
Definition rep_pen_int : kw.t := with_REP_PEN (VInt 2) kw.defaults.

(** Transports: one that answers every request with [r], one that
    fails before any response. *)
Definition reply (r : Response) : transport := fun _ _ => Some r.
Definition offline : transport := fun _ _ => None.

(** The body [{"results": [{"text": t}]}]. *)
Definition body_text (t : pyval) : pyval :=
  VDict [("results", VList [VDict [("text", t)]])].

Definition r200 (j : pyval) : Response := mkResponse 200 (Some j).

Definition stop_trim : kw.t :=
  with_STOP_SEQUENCE (Some ["STOP"]) (with_TRIM_STOP true kw.defaults).
Definition stop_no_trim : kw.t :=
  with_STOP_SEQUENCE (Some ["STOP"]) kw.defaults.
Definition stop_two : kw.t :=
  with_STOP_SEQUENCE (Some ["STOP"; "END"]) kw.defaults.

Definition active : kw.t :=
  with_MIROSTAT (NInt 2)
    (with_GRAMMAR "root ::= [a-z]+"
       (with_MEMORY "You are a helpful assistant."
          (with_SAMPLER_SEED 42 stop_trim))).

Definition hello : Response := r200 (body_text (VStr "Hello world. STOP")).
Definition done_end_stop : Response :=
  r200 (body_text (VStr "Done. END STOP")).

(** A successful response whose [text] is [null]. *)
Definition text_null : Response := r200 (body_text VNone).

(** A successful response without [results]; a failed one without body. *)
Definition no_results : Response :=
  r200 (VDict [("detail", VStr "busy")]).
Definition r503 : Response := mkResponse 503 None.

End Ex.

(** ** Vocabulary of the further properties *)

(** A number whose value lies between 0 and 1. *)
Definition in_unit_range (n : num) : Prop :=
  num_ge n 0 = true /\ num_le n 1 = true.

(** The sampling coefficients that [is_valid_float] guards. *)
Definition coefficients (self : KoboldProvider) : list num :=
  [TEMPERATURE self; TFS self; TOP_A self; TOP_P self; MIN_P self;
   TYPICAL self].

(** The keys that every payload has. *)
Definition base_keys : list string :=
  ["prompt"; "max_context_length"; "MAX_LENGTH"; "rep_pen"; "rep_pen_range";
   "sampler_order"; "temperature"; "tfs"; "top_a"; "top_k"; "top_p";
   "min_p"; "typical"].

(** The endpoint of a base URL. *)
Definition endpoint (base : string) : string := base ++ "/api/v1/generate".

(** A text that begins, or ends, with a whitespace character. *)
Definition starts_with_space (s : string) : Prop :=
  exists c r, s = String c r /\ Str.isspace c = true.

Definition ends_with_space (s : string) : Prop :=
  exists u c, s = u ++ String c "" /\ Str.isspace c = true.

(** The format error that [inference] raises for a response. *)
Definition format_error (r : Response) : exn :=
  ValueError ("Unexpected response format from Kobold API:  "
              ++ Response_str r).

(** [KoboldProvider(AI_PROVIDER_URI=u)], the other arguments at their
    defaults. *)
Definition with_uri (u : string) : kw.t :=
  let 'kw.make _ a2 a3 a4 a5 a6 a7 a8 a9 a10 a11 a12 a13 a14 a15 a16 a17
        a18 a19 a20 a21 a22 a23 a24 a25 a26 := kw.defaults in
  kw.make u a2 a3 a4 a5 a6 a7 a8 a9 a10 a11 a12 a13 a14 a15 a16 a17
    a18 a19 a20 a21 a22 a23 a24 a25 a26.

(** A transport that answers at one address only. *)
Definition only_at (address : string) (r : Response) : transport :=
  fun url _ => if String.eqb url address then Some r else None.

(** Stop sequences with an empty string among them. *)
Definition stop_with_empty : kw.t :=
  Ex.with_STOP_SEQUENCE (Some ["STOP"; ""]) kw.defaults.

(** The body [{"results": x}]. *)
Definition body_results (x : pyval) : pyval := VDict [("results", x)].

(** * Properties *)

(** ** Strings *)

Module StrFacts.

Lemma length_app (u v : string) :
  String.length (u ++ v) = (String.length u + String.length v)%nat.
Proof. induction u as [|c u IH]; simpl; [reflexivity | now rewrite IH]. Qed.

Lemma app_empty_r (u : string) : u ++ "" = u.
Proof. induction u as [|c u IH]; simpl; [reflexivity | now rewrite IH]. Qed.

Lemma take_app (u v : string) : Str.take (String.length u) (u ++ v) = u.
Proof. induction u as [|c u IH]; simpl; [now destruct v | now rewrite IH]. Qed.

Lemma drop_app (u v : string) : Str.drop (String.length u) (u ++ v) = v.
Proof. induction u as [|c u IH]; simpl; [now destruct v | exact IH]. Qed.

Lemma take_drop (n : nat) (s : string) : Str.take n s ++ Str.drop n s = s.
Proof.
  revert s; induction n as [|n IH]; intros [|c s]; simpl; try reflexivity.
  now rewrite IH.
Qed.

Lemma length_drop (n : nat) (s : string) :
  String.length (Str.drop n s) = (String.length s - n)%nat.
Proof.
  revert s; induction n as [|n IH]; intros [|c s]; simpl; try reflexivity.
  apply IH.
Qed.

Lemma app_inv_tail (u u' v : string) : u ++ v = u' ++ v -> u = u'.
Proof.
  revert u'; induction u as [|c u IH]; intros [|c' u'] H; simpl in *.
  - reflexivity.
  - apply (f_equal String.length) in H; simpl in H.
    rewrite length_app in H; lia.
  - apply (f_equal String.length) in H; simpl in H.
    rewrite length_app in H; lia.
  - injection H as -> H. f_equal. now apply IH.
Qed.

(** [endswith] decides "ends in". *)
Lemma endswith_app (u v : string) : Str.endswith (u ++ v) v = true.
Proof.
  unfold Str.endswith. rewrite length_app.
  replace (String.length u + String.length v - String.length v)%nat
    with (String.length u) by lia.
  rewrite drop_app, String.eqb_refl, andb_true_r.
  apply Nat.leb_le; lia.
Qed.

Lemma endswith_inv (s v : string) :
  Str.endswith s v = true ->
  s = Str.take (String.length s - String.length v) s ++ v.
Proof.
  unfold Str.endswith. intros H.
  apply andb_true_iff in H as [_ H]. apply String.eqb_eq in H.
  transitivity (Str.take (String.length s - String.length v) s
                ++ Str.drop (String.length s - String.length v) s).
  - symmetry. apply take_drop.
  - now rewrite H.
Qed.

Lemma endswith_iff (s v : string) :
  Str.endswith s v = true <-> exists u, s = u ++ v.
Proof.
  split.
  - intros H. eexists. now apply endswith_inv.
  - intros [u ->]. apply endswith_app.
Qed.

Lemma endswith_false (s v : string) :
  Str.endswith s v = false -> forall u, s <> u ++ v.
Proof.
  intros H u ->. now rewrite endswith_app in H.
Qed.

(** [(u ++ v)[: -len(v)]] is [u] when [v] is not empty ... *)
Lemma slice_to_app (u v : string) :
  v <> "" -> Str.slice_to (u ++ v) (- Str.len v) = u.
Proof.
  intros Hv. unfold Str.slice_to, Str.len. rewrite length_app.
  assert (0 < String.length v)%nat by (destruct v; simpl; [congruence | lia]).
  replace (- Z.of_nat (String.length v) <? 0) with true
    by (symmetry; apply Z.ltb_lt; lia).
  replace (Z.to_nat (Z.max 0 (Z.of_nat (String.length u + String.length v)
                              + - Z.of_nat (String.length v))))
    with (String.length u) by lia.
  apply take_app.
Qed.

(** ... and is empty when [v] is: [s[:-0]] is [s[:0]]. *)
Lemma slice_to_zero (s : string) : Str.slice_to s (- Str.len "") = "".
Proof. unfold Str.slice_to; simpl. now destruct s. Qed.

End StrFacts.

(** ** [clean_url] *)

(** C6. The URL normalizer is a total function that applies at most one
    trimming: a string that ends in "/api" loses exactly these four
    characters; a string that ends in "/" (it cannot then end in "/api")
    loses exactly this one character; any other string is returned
    unchanged. *)
Theorem clean_url_spec (url : string) :
  (forall u, url = u ++ "/api" -> clean_url url = u) /\
  (forall u, url = u ++ "/" -> clean_url url = u) /\
  ((forall u, url <> u ++ "/api") -> (forall u, url <> u ++ "/") ->
   clean_url url = url).
Proof.
  unfold clean_url. repeat split.
  - intros u ->. rewrite StrFacts.endswith_app.
    apply (StrFacts.slice_to_app u "/api"). discriminate.
  - intros u ->.
    destruct (Str.endswith (u ++ "/") "/api") eqn:E.
    + exfalso. apply StrFacts.endswith_iff in E as [w E].
      replace (w ++ "/api") with ((w ++ "/ap") ++ "i") in E.
      * apply (f_equal (Str.drop (String.length u))) in E.
        rewrite StrFacts.drop_app in E.
        assert (L : String.length u = String.length (w ++ "/ap")).
        { apply (f_equal String.length) in E.
          rewrite StrFacts.length_drop, StrFacts.length_app in E.
          simpl in E. lia. }
        rewrite L, StrFacts.drop_app in E. discriminate.
      * clear. induction w as [|c w IH]; simpl; [reflexivity | now rewrite IH].
    + rewrite StrFacts.endswith_app.
      apply (StrFacts.slice_to_app u "/"). discriminate.
  - intros H1 H2.
    destruct (Str.endswith url "/api") eqn:E1.
    + apply StrFacts.endswith_iff in E1 as [u E]. now destruct (H1 u).
    + destruct (Str.endswith url "/") eqn:E2; [|reflexivity].
      apply StrFacts.endswith_iff in E2 as [u E]. now destruct (H2 u).
Qed.

Lemma clean_url_spec_witness :
  clean_url "http://localhost:5001/api" = "http://localhost:5001" /\
  clean_url "http://localhost:5001/api/" = "http://localhost:5001/api" /\
  clean_url "http://localhost:5001" = "http://localhost:5001".
Proof.
  split; [|split].
  - apply (proj1 (clean_url_spec "http://localhost:5001/api")
             "http://localhost:5001").
    reflexivity.
  - apply (proj1 (proj2 (clean_url_spec "http://localhost:5001/api/"))
             "http://localhost:5001/api").
    reflexivity.
  - apply (proj2 (proj2 (clean_url_spec "http://localhost:5001")));
      apply StrFacts.endswith_false; reflexivity.
Defined.

(** ** The constructor *)

Lemma is_valid_float_num (v : pyval) (r : bool) :
  is_valid_float v r = true -> exists n, v = VNum n.
Proof. destruct v; try discriminate. intros _. now eexists. Qed.

Lemma rep_pen_guard_num (v : pyval) :
  rep_pen_guard v = true -> exists n, v = VNum n.
Proof. destruct v; try discriminate. intros _. now eexists. Qed.

Lemma top_k_guard_num (v : pyval) :
  top_k_guard v = true -> exists n, v = VNum n.
Proof. destruct v; try discriminate. intros _. now eexists. Qed.

(** [keep_num] is the conditional expression of the source. *)
Lemma keep_num_spec (v : pyval) (valid : bool) (d : num) :
  (valid = true -> exists n, v = VNum n) ->
  VNum (keep_num v valid d) = if valid then v else VNum d.
Proof.
  intros H. destruct valid.
  - destruct (H eq_refl) as [n ->]. reflexivity.
  - now destruct v.
Qed.

Lemma rep_pen_guard_iff (v : pyval) :
  rep_pen_guard v = true <-> float_ge_1 v.
Proof.
  split.
  - destruct v as [|[b|z|f]|s|l|d]; try discriminate.
    intros H. exists f. split; [reflexivity | exact H].
  - intros [f [-> H]]. exact H.
Qed.

(** C7. A candidate REP_PEN that is a float at least 1 is stored
    unchanged; for every other candidate the stored repetition penalty is
    the default 1.1. *)
Theorem rep_pen_validation (a : kw.t) :
  (float_ge_1 (kw.REP_PEN a) -> VNum (REP_PEN (__init__ a)) = kw.REP_PEN a) /\
  (~ float_ge_1 (kw.REP_PEN a) -> REP_PEN (__init__ a) = NFloat f1_1).
Proof.
  simpl. split; intros H.
  - rewrite keep_num_spec by apply rep_pen_guard_num.
    apply rep_pen_guard_iff in H. now rewrite H.
  - destruct (rep_pen_guard (kw.REP_PEN a)) eqn:E.
    + apply rep_pen_guard_iff in E. contradiction.
    + unfold keep_num. now destruct (kw.REP_PEN a).
Qed.

Lemma rep_pen_validation_witness :
  VNum (REP_PEN (__init__ Ex.rep_pen_2)) = VFloat Ex.f2_0 /\
  REP_PEN (__init__ Ex.rep_pen_int) = NFloat f1_1.
Proof.
  split.
  - apply (proj1 (rep_pen_validation Ex.rep_pen_2)).
    exists Ex.f2_0. split; reflexivity.
  - apply (proj2 (rep_pen_validation Ex.rep_pen_int)).
    intros [f [E _]]. discriminate E.
Defined.

(** C2. The stored seed is decided by the candidate REP_PEN_RANGE alone:
    outside [-1, 999999] the stored seed is -1 whatever the candidate
    seed, inside the candidate seed is stored unchanged. *)
Theorem sampler_seed_follows_range (a : kw.t) :
  (kw.REP_PEN_RANGE a < -1 \/ 999999 < kw.REP_PEN_RANGE a ->
   SAMPLER_SEED (__init__ a) = -1) /\
  (-1 <= kw.REP_PEN_RANGE a <= 999999 ->
   SAMPLER_SEED (__init__ a) = kw.SAMPLER_SEED a).
Proof.
  simpl. split; intros H.
  - replace ((-1 <=? kw.REP_PEN_RANGE a) && (kw.REP_PEN_RANGE a <=? 999999))
      with false; [reflexivity|].
    symmetry. apply andb_false_iff.
    destruct H; [left; apply Z.leb_gt | right; apply Z.leb_gt]; lia.
  - replace ((-1 <=? kw.REP_PEN_RANGE a) && (kw.REP_PEN_RANGE a <=? 999999))
      with true; [reflexivity|].
    symmetry. apply andb_true_iff. split; apply Z.leb_le; lia.
Qed.

Lemma sampler_seed_follows_range_witness :
  SAMPLER_SEED (__init__ Ex.seed_range_out) = -1 /\
  SAMPLER_SEED (__init__ Ex.seed_range_in) = 42.
Proof.
  split.
  - apply (proj1 (sampler_seed_follows_range Ex.seed_range_out)).
    right. simpl. lia.
  - apply (proj2 (sampler_seed_follows_range Ex.seed_range_in)).
    simpl. lia.
Defined.

(** The test of the sampler order lets every list of integers through:
    its last line is [A or S] for a non-empty set [S]. *)
Lemma is_valid_sample_order_int_list (l : list pyval) :
  forallb isinstance_int l = true ->
  verdict_truthy (is_valid_sample_order (VList l)) = true.
Proof.
  intros H. simpl. rewrite H. unfold py_or.
  now destruct (set_eqb (py_set l) (range 6)).
Qed.

Lemma is_valid_sample_order_other (v : pyval) :
  (forall l, v = VList l -> ~ all_int l) ->
  verdict_truthy (is_valid_sample_order v) = false.
Proof.
  intros H. destruct v as [| | |l|]; try reflexivity.
  simpl. destruct (forallb isinstance_int l) eqn:E; [|reflexivity].
  exfalso. apply (H l eq_refl).
  apply Forall_forall. now apply forallb_forall.
Qed.

(** C1, as the code has it. A candidate SAMPLE_ORDER that is not a list of
    integers is replaced by the default permutation [6,0,1,3,4,2,5]; a
    list of integers whose members are exactly the indices 0 to 5, or
    exactly the indices 0 to 6, is stored unchanged. *)
Theorem sample_order_validation (a : kw.t) :
  (forall l, kw.SAMPLE_ORDER a = VList l -> all_int l ->
             members_below l 6 \/ members_below l 7 ->
             SAMPLE_ORDER (__init__ a) = kw.SAMPLE_ORDER a) /\
  ((forall l, kw.SAMPLE_ORDER a = VList l -> ~ all_int l) ->
   SAMPLE_ORDER (__init__ a) = default_sample_order).
Proof.
  split.
  - intros l E Hint _. simpl. rewrite E.
    rewrite is_valid_sample_order_int_list; [reflexivity|].
    apply forallb_forall. now apply Forall_forall.
  - intros H. simpl. now rewrite is_valid_sample_order_other.
Qed.

Lemma sample_order_validation_witness :
  SAMPLE_ORDER (__init__ Ex.order7) = Ex.ints [0; 1; 2; 3; 4; 5; 6] /\
  SAMPLE_ORDER (__init__ Ex.order_str) = default_sample_order.
Proof.
  split.
  - apply (proj1 (sample_order_validation Ex.order7)
             (map VInt [0; 1; 2; 3; 4; 5; 6]) eq_refl).
    + repeat constructor.
    + right. intros z. simpl. split.
      * intros H. repeat (destruct H as [<-|H]; [lia|]). destruct H.
      * intros H.
        assert (E : z = 0 \/ z = 1 \/ z = 2 \/ z = 3 \/ z = 4 \/ z = 5
                    \/ z = 6) by lia.
        repeat (destruct E as [->|E]; [tauto|]). subst z. tauto.
  - apply (proj2 (sample_order_validation Ex.order_str)).
    intros l E. discriminate E.
Defined.

(** C1 fails as stated: the six-sampler order [0,1,2,3,4,5] is accepted by
    the comparison with [set(range(6))] and stored, though it is not a
    permutation of the indices 0 to 6. *)
Lemma sample_order_counterexample :
  SAMPLE_ORDER (__init__ Ex.order6) = Ex.ints [0; 1; 2; 3; 4; 5] /\
  ~ (is_permutation_0_6 (SAMPLE_ORDER (__init__ Ex.order6)) /\
     (~ is_permutation_0_6 (kw.SAMPLE_ORDER Ex.order6) ->
      SAMPLE_ORDER (__init__ Ex.order6) = default_sample_order)).
Proof.
  split; [reflexivity|].
  intros [[l [E P]] _].
  apply Permutation_length in P.
  injection E as E. apply (f_equal (@List.length _)) in E.
  rewrite length_map in E. simpl in *. lia.
Qed.

(** The disjunction of line 34 lets any list of integers through. *)
Example sample_order_unchecked :
  SAMPLE_ORDER (__init__ Ex.order_bad) = Ex.ints [7; 7].
Proof. reflexivity. Qed.

(** ** The monad: calls that only read *)

Lemma ret_preserves {A} (a : A) : preserves_self (ret a).
Proof. intros self. reflexivity. Qed.

Lemma attr_preserves {A} (f : KoboldProvider -> A) : preserves_self (attr f).
Proof. intros self. reflexivity. Qed.

Lemma lift_preserves {A} (r : result A) : preserves_self (lift r).
Proof. intros self. reflexivity. Qed.

Lemma bind_preserves {A B} (m : M A) (k : A -> M B) :
  preserves_self m -> (forall a, preserves_self (k a)) ->
  preserves_self (bind m k).
Proof.
  intros Hm Hk self. unfold bind.
  specialize (Hm self). destruct (m self) as [[e|a] self']; simpl in *; subst.
  - reflexivity.
  - apply Hk.
Qed.

Ltac frame :=
  repeat first
    [ apply ret_preserves | apply attr_preserves | apply lift_preserves
    | apply bind_preserves; [|intro]
    | match goal with
      | |- preserves_self (match ?x with _ => _ end) => destruct x
      | |- preserves_self (if ?x then _ else _) => destruct x
      | |- preserves_self (let _ := _ in _) => cbv zeta
      end ].

Lemma build_params_preserves (prompt : string) (tokens : Z) :
  preserves_self (build_params prompt tokens).
Proof. unfold build_params. frame. Qed.

Lemma extract_preserves (response : Response) :
  preserves_self (extract response).
Proof. unfold extract. frame. Qed.

(** C9. Whatever the arguments and whatever the transport answers, every
    attribute of the client is the same after a call of [inference] as
    before it, also when the call raises. *)
Theorem inference_preserves_self (requests_post : transport) (prompt : string)
    (tokens : Z) (self : KoboldProvider) :
  snd (inference requests_post prompt tokens self) = self.
Proof.
  revert self. change (preserves_self (inference requests_post prompt tokens)).
  unfold inference.
  apply bind_preserves; [apply build_params_preserves | intro params].
  frame.
Qed.

(** ** The payload *)

Lemma keep_float_ok (v : pyval) (r : bool) (d : float) :
  exists f, py_float (keep_num v (is_valid_float v r) (NFloat d)) = ok f.
Proof.
  destruct v as [|[b|z|f]|s|l|dd]; simpl; try (eexists; reflexivity).
  - destruct (is_valid_float _ _); eexists; reflexivity.
  - unfold is_valid_float, py_eq_int, num_eq. simpl.
    destruct (Z.compare_spec z 0) as [->| |]; simpl;
      try (eexists; reflexivity);
      destruct (Z.compare_spec z 1) as [->| |]; simpl; eexists; reflexivity.
  - destruct (is_valid_float _ _); eexists; reflexivity.
Qed.

Lemma keep_rep_pen_ok (v : pyval) :
  exists f, py_float (keep_num v (rep_pen_guard v) (NFloat f1_1)) = ok f.
Proof.
  destruct v as [|[b|z|f]|s|l|dd]; simpl; try (eexists; reflexivity).
  destruct (rep_pen_guard _); eexists; reflexivity.
Qed.

Lemma keep_top_k_ok (v : pyval) :
  exists k, py_int (keep_num v (top_k_guard v) (NInt 100)) = ok k.
Proof.
  destruct v as [|[b|z|f]|s|l|dd]; simpl; try (eexists; reflexivity);
    destruct (top_k_guard _); eexists; reflexivity.
Qed.

(** The constructor leaves numeric attributes that convert. *)
Lemma init_convertible (a : kw.t) : convertible (__init__ a).
Proof.
  unfold convertible, __init__; cbn [REP_PEN TEMPERATURE TFS TOP_A TOP_K TOP_P MIN_P TYPICAL].
  repeat split;
    first [apply keep_float_ok | apply keep_rep_pen_ok | apply keep_top_k_ok].
Qed.

(** Reading the attributes of a client given by its record. *)
Ltac fields :=
  cbn [AI_PROVIDER_URI AI_MODEL PROMPT_PREFIX PROMPT_SUFFIX MAX_CONTEXT_LENGTH
       MAX_LENGTH REP_PEN REP_PEN_RANGE SAMPLE_ORDER SAMPLER_SEED
       STOP_SEQUENCE TEMPERATURE TFS TOP_A TOP_K TOP_P MIN_P TYPICAL
       USE_DEFAULT_BADWORDSIDS MIROSTAT MIROSTAT_TAU MIROSTAT_ETA GRAMMAR
       GRAMMAR_RETAIN_STATE MEMORY TRIM_STOP set_TRIM_STOP] in *.

(** Running [build_params] on a client whose attributes convert. *)
Ltac run_build H :=
  destruct H as ([? H1] & [? H2] & [? H3] & [? H4] & [? H5] & [? H6]
                 & [? H7] & [? H8]);
  unfold build_params, bind, attr, lift, ret, ok in *; fields;
  cbv beta iota; rewrite H1;
  cbv beta iota; rewrite H2;
  cbv beta iota; rewrite H3;
  cbv beta iota; rewrite H4;
  cbv beta iota; rewrite H5;
  cbv beta iota; rewrite H6;
  cbv beta iota; rewrite H7;
  cbv beta iota; rewrite H8;
  cbv beta iota zeta.

Lemma dict_get_set_same (k : string) (v : pyval) (d : dict) :
  dict_get k (dict_set k v d) = Some v.
Proof.
  induction d as [|[k' v'] d IH]; simpl.
  - now rewrite String.eqb_refl.
  - destruct (String.eqb k' k) eqn:E; simpl.
    + now rewrite String.eqb_refl.
    + now rewrite E.
Qed.

Lemma dict_get_set_other (k k' : string) (v : pyval) (d : dict) :
  String.eqb k' k = false -> dict_get k (dict_set k' v d) = dict_get k d.
Proof.
  intros N. induction d as [|[k'' v'] d IH]; simpl.
  - now rewrite N.
  - destruct (String.eqb k'' k') eqn:E; simpl.
    + apply String.eqb_eq in E. subst k''. now rewrite N.
    + now rewrite IH.
Qed.

Lemma dict_get_when (k : string) (c : bool) (f : dict -> dict) (d : dict) :
  dict_get k (when c f d) = if c then dict_get k (f d) else dict_get k d.
Proof. now destruct c. Qed.

Lemma if_same {A} (c : bool) (x : A) : (if c then x else x) = x.
Proof. now destruct c. Qed.

(** Looking a key up through the conditional updates of the payload. *)
Ltac lookup :=
  repeat first
    [ rewrite dict_get_set_same
    | rewrite dict_get_set_other by reflexivity
    | rewrite if_same
    | rewrite dict_get_when; cbv beta ];
  cbn [dict_get String.eqb Ascii.eqb Bool.eqb].

(** A constructed client always builds its payload. *)
Lemma build_params_total (a : kw.t) (prompt : string) (tokens : Z) :
  exists d, build_params prompt tokens (__init__ a) = (ok d, __init__ a).
Proof.
  pose proof (init_convertible a) as H.
  generalize dependent (__init__ a). intros self H.
  run_build H. eexists. reflexivity.
Qed.

(** What [inference] does with the payload: it goes to the transport, and
    the response, if any, is checked and decoded. *)
Lemma inference_run (requests_post : transport) (prompt : string)
    (tokens : Z) (self : KoboldProvider) (d : dict) :
  build_params prompt tokens self = (ok d, self) ->
  inference requests_post prompt tokens self
  = match requests_post (AI_PROVIDER_URI self ++ "/api/v1/generate") d with
    | None => (raise RequestException, self)
    | Some response =>
        match raise_for_status response with
        | inl e => (inl e, self)
        | inr _ => extract response self
        end
    end.
Proof.
  intros H. unfold inference. unfold bind at 1. rewrite H.
  unfold ok. cbv beta iota. unfold bind at 1, attr, ok. cbv beta iota.
  destruct (requests_post _ d) as [r|]; [|reflexivity].
  unfold bind, lift. now destruct (raise_for_status r).
Qed.

(** C8. The max-length value of the payload is the stored maximal output
    length minus the reserved tokens, whatever its sign, and the payload
    goes to the transport as it is. *)
Theorem max_length_payload (a : kw.t) (prompt : string) (tokens : Z) :
  exists d,
    build_params prompt tokens (__init__ a) = (ok d, __init__ a) /\
    dict_get "MAX_LENGTH" d = Some (VInt (MAX_LENGTH (__init__ a) - tokens)) /\
    forall requests_post : transport,
      inference requests_post prompt tokens (__init__ a)
      = match requests_post
                (AI_PROVIDER_URI (__init__ a) ++ "/api/v1/generate") d with
        | None => (raise RequestException, __init__ a)
        | Some response =>
            match raise_for_status response with
            | inl e => (inl e, __init__ a)
            | inr _ => extract response (__init__ a)
            end
        end.
Proof.
  pose proof (init_convertible a) as H.
  generalize dependent (__init__ a). intros self H.
  assert (B : exists d,
             build_params prompt tokens self = (ok d, self) /\
             dict_get "MAX_LENGTH" d = Some (VInt (MAX_LENGTH self - tokens))).
  { run_build H. eexists. split; [reflexivity|].
    destruct (STOP_SEQUENCE self); lookup; reflexivity. }
  destruct B as (d & B & L). exists d. repeat split; try assumption.
  intros requests_post. now apply inference_run.
Qed.

(** More reserved tokens than the maximal length: a negative value is sent. *)
Example max_length_negative :
  exists d,
    build_params "Hi" 100 (__init__ kw.defaults)
    = (ok d, __init__ kw.defaults) /\
    dict_get "MAX_LENGTH" d = Some (VInt (-20)).
Proof. eexists. split; [vm_compute; reflexivity | reflexivity]. Qed.

Ltac payload_key self :=
  unfold carries;
  destruct (STOP_SEQUENCE self) eqn:?; lookup;
  repeat match goal with
         | |- context [SAMPLER_SEED self >? 0] =>
             destruct (Z.gtb_spec (SAMPLER_SEED self) 0)
         | |- context [Str.nonempty ?s] => destruct s eqn:?; cbn [Str.nonempty]
         | |- context [if ?c then _ else _] => destruct c eqn:?
         end;
  try split; intros;
  first [ reflexivity | congruence | exfalso; intuition (congruence || lia) ].

(** C5. The keys [mirostat] (with [mirostat_tau] and [mirostat_eta]),
    [grammar] (with [grammar_retain_state]), [memory], [sampler_seed] and
    [stop_sequence] are in the payload exactly when, respectively, the
    stored mirostat mode is above 0, the stored grammar is not empty, the
    stored memory is not empty, the stored seed is above 0 and a list of
    stop sequences is configured; each then carries the stored value.
    [trim_stop] is there exactly when trimming is enabled and stop
    sequences are configured. *)
Theorem conditional_payload_keys (a : kw.t) (prompt : string) (tokens : Z) :
  exists d,
    build_params prompt tokens (__init__ a) = (ok d, __init__ a) /\
    let self := __init__ a in
    carries d "mirostat" (num_gt (MIROSTAT self) 0 = true)
      (VNum (MIROSTAT self)) /\
    carries d "mirostat_tau" (num_gt (MIROSTAT self) 0 = true)
      (VFloat (MIROSTAT_TAU self)) /\
    carries d "mirostat_eta" (num_gt (MIROSTAT self) 0 = true)
      (VFloat (MIROSTAT_ETA self)) /\
    carries d "grammar" (GRAMMAR self <> "") (VStr (GRAMMAR self)) /\
    carries d "grammar_retain_state" (GRAMMAR self <> "")
      (VBool (GRAMMAR_RETAIN_STATE self)) /\
    carries d "memory" (MEMORY self <> "") (VStr (MEMORY self)) /\
    carries d "sampler_seed" (0 < SAMPLER_SEED self)
      (VInt (SAMPLER_SEED self)) /\
    (forall seqs, STOP_SEQUENCE self = Some seqs ->
                  dict_get "stop_sequence" d = Some (VList (map VStr seqs))) /\
    (STOP_SEQUENCE self = None -> dict_get "stop_sequence" d = None) /\
    carries d "trim_stop"
      (TRIM_STOP self = true /\ STOP_SEQUENCE self <> None) (VBool true).
Proof.
  pose proof (init_convertible a) as H.
  generalize dependent (__init__ a). intros self H.
  run_build H.
  eexists. split; [reflexivity|].
  cbv zeta.
  split; [payload_key self|].
  split; [payload_key self|].
  split; [payload_key self|].
  split; [payload_key self|].
  split; [payload_key self|].
  split; [payload_key self|].
  split; [payload_key self|].
  split; [payload_key self|].
  split; [payload_key self|].
  payload_key self.
Qed.

Lemma conditional_payload_keys_witness :
  (exists d,
      build_params "Hi" 0 (__init__ Ex.active) = (ok d, __init__ Ex.active) /\
      dict_get "mirostat" d = Some (VInt 2) /\
      dict_get "grammar" d = Some (VStr "root ::= [a-z]+") /\
      dict_get "memory" d = Some (VStr "You are a helpful assistant.") /\
      dict_get "sampler_seed" d = Some (VInt 42) /\
      dict_get "stop_sequence" d = Some (VList [VStr "STOP"]) /\
      dict_get "trim_stop" d = Some (VBool true)) /\
  (exists d,
      build_params "Hi" 0 (__init__ kw.defaults)
      = (ok d, __init__ kw.defaults) /\
      dict_get "mirostat" d = None /\
      dict_get "grammar" d = None /\
      dict_get "memory" d = None /\
      dict_get "sampler_seed" d = None /\
      dict_get "stop_sequence" d = None /\
      dict_get "trim_stop" d = None).
Proof.
  split.
  - destruct (conditional_payload_keys Ex.active "Hi" 0)
      as (d & B & M & _ & _ & G & _ & Me & S & St & _ & T).
    exists d. split; [exact B|]. repeat split.
    + apply (proj1 M). reflexivity.
    + apply (proj1 G). discriminate.
    + apply (proj1 Me). discriminate.
    + apply (proj1 S). simpl. lia.
    + apply (St ["STOP"]). reflexivity.
    + apply (proj1 T). split; [reflexivity | discriminate].
  - destruct (conditional_payload_keys kw.defaults "Hi" 0)
      as (d & B & M & _ & _ & G & _ & Me & S & _ & St & T).
    exists d. split; [exact B|]. repeat split.
    + apply (proj2 M). discriminate.
    + apply (proj2 G). intros N. now apply N.
    + apply (proj2 Me). intros N. now apply N.
    + apply (proj2 S). simpl. lia.
    + apply St. reflexivity.
    + apply (proj2 T). intros [N _]. discriminate N.
Defined.

(** ** Running [inference] *)

Lemma raise_for_status_failed (r : Response) :
  failed r -> raise_for_status r = raise (HTTPError (status_code r)).
Proof.
  unfold failed, raise_for_status. intros [H1 H2].
  apply Z.leb_le in H1. apply Z.ltb_lt in H2. now rewrite H1, H2.
Qed.

Lemma raise_for_status_passed (r : Response) :
  ~ failed r -> raise_for_status r = ok tt.
Proof.
  unfold failed, raise_for_status. intros H.
  destruct (Z.leb_spec 400 (status_code r)); [|reflexivity].
  destruct (Z.ltb_spec (status_code r) 600); [|reflexivity].
  exfalso. apply H. lia.
Qed.

Lemma raise_for_status_error (r : Response) (e : exn) :
  raise_for_status r = inl e -> failed r /\ e = HTTPError (status_code r).
Proof.
  unfold failed, raise_for_status.
  destruct (Z.leb_spec 400 (status_code r)); [|discriminate].
  destruct (Z.ltb_spec (status_code r) 600); [|discriminate].
  simpl. intros [= <-]. split; [lia | reflexivity].
Qed.

Lemma extract_text (r : Response) (self : KoboldProvider) (j : pyval)
    (t : string) :
  body r = Some j -> results_text j (VStr t) ->
  extract r self
  = (ok match STOP_SEQUENCE self with
        | Some seqs => fold_left strip_stop seqs (Str.strip t)
        | None => Str.strip t
        end, self).
Proof.
  intros B (d & e & rest & -> & Hr & Ht).
  unfold extract, bind, lift, attr, json, has_text. rewrite B.
  cbn [rbind py_in py_getitem py_len py_getitem0 ok raise].
  unfold dict_has. rewrite Hr.
  cbn [rbind py_in py_getitem py_len py_getitem0 ok raise List.length].
  replace (Z.of_nat (S (List.length rest)) >? 0) with true by reflexivity.
  unfold dict_has. rewrite Ht. cbn [rbind py_strip ok].
  unfold ret. now destruct (STOP_SEQUENCE self).
Qed.

Lemma extract_lacking (r : Response) (self : KoboldProvider) (j : pyval) :
  body r = Some j -> lacks_results_text j ->
  extract r self
  = (raise (ValueError ("Unexpected response format from Kobold API:  "
                        ++ Response_str r)), self).
Proof.
  intros B (d & -> & H).
  unfold extract, bind, lift, attr, json, has_text. rewrite B.
  cbn [rbind py_in py_getitem py_len py_getitem0 ok raise].
  unfold dict_has.
  destruct H as [H | [H | (e & rest & H & Ht)]]; rewrite H;
    cbn [rbind py_in py_getitem py_len py_getitem0 ok raise List.length];
    try reflexivity.
  replace (Z.of_nat (S (List.length rest)) >? 0) with true by reflexivity.
  unfold dict_has. now rewrite Ht.
Qed.

(** Case analysis on a scrutinee that is not itself a case analysis. *)
Ltac innermost :=
  match goal with
  | |- context [match ?x with _ => _ end] =>
      lazymatch x with
      | match _ with _ => _ end => fail
      | _ => destruct x
      end
  end.

(** The errors of [extract]: those of decoding, or the format error, which
    comes with a body that failed the test of its shape. *)
Lemma extract_error (r : Response) (self : KoboldProvider) (e : exn) :
  fst (extract r self) = inl e ->
  decoding_error e \/
  (e = ValueError ("Unexpected response format from Kobold API:  "
                   ++ Response_str r) /\
   exists j, body r = Some j /\ has_text j = ok false).
Proof.
  unfold extract, bind, lift, attr, json.
  destruct (body r) as [j|]; cbn [fst raise ok].
  2:{ intros [= <-]. left. unfold decoding_error. tauto. }
  destruct (has_text j) as [e'|[|]] eqn:Hs; cbn [fst raise ok].
  - intros [= <-]. left. revert Hs.
    unfold has_text, rbind, py_in, py_getitem, py_len, py_getitem0, ok, raise.
    unfold decoding_error.
    repeat innermost; intros [= <-]; tauto.
  - unfold rbind, py_getitem, py_getitem0, py_strip, ok, raise, ret.
    unfold decoding_error.
    repeat innermost; cbn [fst]; intros [= <-]; tauto.
  - intros [= <-]. right. split; [reflexivity|]. now exists j.
Qed.

(** ** Stop sequences *)

Lemma strip_stop_remove (u s : string) :
  s <> "" -> strip_stop (u ++ s) s = Str.rstrip u.
Proof.
  intros N. unfold strip_stop.
  now rewrite StrFacts.endswith_app, StrFacts.slice_to_app.
Qed.

Lemma strip_stop_keep (text s : string) :
  (forall u, text <> u ++ s) -> strip_stop text s = text.
Proof.
  intros N. unfold strip_stop.
  destruct (Str.endswith text s) eqn:E; [|reflexivity].
  apply StrFacts.endswith_iff in E as [u E]. now destruct (N u).
Qed.

(** The loop of [inference] realises [strips]. *)
Lemma fold_strip_stop_strips (seqs : list string) (text : string) :
  Forall (fun s => s <> "") seqs ->
  strips seqs text (fold_left strip_stop seqs text).
Proof.
  intros F. revert text.
  induction F as [|s rest N F IH]; intros text; cbn [fold_left].
  - constructor.
  - destruct (Str.endswith text s) eqn:E.
    + apply StrFacts.endswith_iff in E as [u ->].
      rewrite strip_stop_remove by assumption.
      apply strips_remove; [assumption | apply IH].
    + rewrite strip_stop_keep by now apply StrFacts.endswith_false.
      apply strips_keep; [now apply StrFacts.endswith_false | apply IH].
Qed.

(** [strips] determines its result. *)
Lemma strips_functional (seqs : list string) (text out1 out2 : string) :
  strips seqs text out1 -> strips seqs text out2 -> out1 = out2.
Proof.
  intros H1. revert out2.
  induction H1 as [text | s rest u out N H1 IH | s rest text out N H1 IH];
    intros out2 H2; inversion H2; subst.
  - reflexivity.
  - match goal with
    | E : _ ++ s = u ++ s |- _ => apply StrFacts.app_inv_tail in E; subst
    end.
    now apply IH.
  - match goal with
    | K : forall u', u ++ s <> u' ++ s |- _ => now destruct (K u)
    end.
  - now destruct (N u).
  - now apply IH.
Qed.

(** C3, as the code has it. The response text is trimmed on both sides;
    then the stop sequences are gone through in configured order, and each
    one that the current text ends in at its turn is removed, the text
    being trimmed on the right after each removal: the loop goes on after
    a match. With the text "Hello world. STOP" and the stop sequences
    ["STOP"], [inference] returns "Hello world.". *)
Theorem stop_sequences_stripped_in_turn :
  (forall (self : KoboldProvider) (requests_post : transport)
          (prompt : string) (tokens : Z) (d : dict) (r : Response)
          (j : pyval) (t : string) (seqs : list string),
      build_params prompt tokens self = (ok d, self) ->
      requests_post (AI_PROVIDER_URI self ++ "/api/v1/generate") d = Some r ->
      ~ failed r -> body r = Some j -> results_text j (VStr t) ->
      STOP_SEQUENCE self = Some seqs -> Forall (fun s => s <> "") seqs ->
      exists out,
        inference requests_post prompt tokens self = (ok out, self) /\
        strips seqs (Str.strip t) out) /\
  inference (Ex.reply Ex.hello) "Say hello." 0 (__init__ Ex.stop_trim)
  = (ok "Hello world.", __init__ Ex.stop_trim).
Proof.
  split; [|vm_compute; reflexivity].
  intros self post prompt tokens d r j t seqs B P S J T Q F.
  rewrite (inference_run _ _ _ _ _ B), P, (raise_for_status_passed _ S).
  rewrite (extract_text _ _ _ _ J T), Q.
  eexists. split; [reflexivity|]. now apply fold_strip_stop_strips.
Qed.

Lemma stop_sequences_stripped_in_turn_witness :
  exists out,
    inference (Ex.reply Ex.done_end_stop) "Go on." 0 (__init__ Ex.stop_two)
    = (ok out, __init__ Ex.stop_two) /\
    strips ["STOP"; "END"] (Str.strip "Done. END STOP") out.
Proof.
  destruct (build_params_total Ex.stop_two "Go on." 0) as [d B].
  apply (proj1 stop_sequences_stripped_in_turn (__init__ Ex.stop_two)
           (Ex.reply Ex.done_end_stop) "Go on." 0 d Ex.done_end_stop
           (Ex.body_text (VStr "Done. END STOP")) "Done. END STOP"
           ["STOP"; "END"]).
  - exact B.
  - reflexivity.
  - unfold failed. simpl. lia.
  - reflexivity.
  - do 3 eexists. repeat split; reflexivity.
  - reflexivity.
  - repeat constructor; discriminate.
Defined.

(** C3 fails as stated: with the stop sequences ["STOP", "END"] and the
    text "Done. END STOP" both are removed, one after the other, where
    removing the first match only would leave "Done. END". *)
Lemma first_stop_only_counterexample :
  fst (inference (Ex.reply Ex.done_end_stop) "Go on." 0 (__init__ Ex.stop_two))
  = ok "Done." /\
  strip_first_stop ["STOP"; "END"] (Str.strip "Done. END STOP") = "Done. END" /\
  fst (inference (Ex.reply Ex.done_end_stop) "Go on." 0 (__init__ Ex.stop_two))
  <> ok (strip_first_stop ["STOP"; "END"] (Str.strip "Done. END STOP")).
Proof.
  repeat split; [vm_compute; reflexivity .. |].
  vm_compute. discriminate.
Qed.

(** ** Errors *)

(** C4, as the code has it. A transport error is raised exactly when a
    response arrives whose status indicates failure, whatever its body. A
    successful response whose decoded body is an object lacking a
    non-empty [results] array with a [text] field in its first element
    raises the format error, which carries the response; a format error
    always comes from a successful response whose body failed that test.
    A successful response with a string at [results[0].text] makes
    [inference] return the extracted text: that string trimmed on both
    sides when no stop sequences are configured, and otherwise what the
    loop over the stop sequences leaves of the trimmed string, each
    sequence that the current text ends in at its turn being removed.
    Every other error is a failed request or an error of decoding the
    body. *)
Theorem inference_errors (self : KoboldProvider) (requests_post : transport)
    (prompt : string) (tokens : Z) (d : dict) :
  build_params prompt tokens self = (ok d, self) ->
  let url := AI_PROVIDER_URI self ++ "/api/v1/generate" in
  let res := fst (inference requests_post prompt tokens self) in
  let format_error r :=
    ValueError ("Unexpected response format from Kobold API:  "
                ++ Response_str r) in
  (forall s, res = inl (HTTPError s) <->
             exists r, requests_post url d = Some r /\ failed r
                       /\ s = status_code r) /\
  (forall r j, requests_post url d = Some r -> ~ failed r ->
               body r = Some j -> lacks_results_text j ->
               res = inl (format_error r)) /\
  (forall m, res = inl (ValueError m) ->
             exists r j, requests_post url d = Some r /\ ~ failed r /\
                         body r = Some j /\ has_text j = ok false /\
                         ValueError m = format_error r) /\
  (forall r j t, requests_post url d = Some r -> ~ failed r ->
                 body r = Some j -> results_text j (VStr t) ->
                 exists out,
                   res = ok out /\
                   (STOP_SEQUENCE self = None -> out = Str.strip t) /\
                   (forall seqs, STOP_SEQUENCE self = Some seqs ->
                      out = fold_left strip_stop seqs (Str.strip t) /\
                      (Forall (fun s => s <> "") seqs ->
                       strips seqs (Str.strip t) out))) /\
  (forall e, res = inl e ->
             e = RequestException \/ (exists s, e = HTTPError s) \/
             (exists m, e = ValueError m) \/ decoding_error e).
Proof.
  intros B url res format_error. subst res.
  rewrite (inference_run _ _ _ _ _ B). fold url.
  destruct (requests_post url d) as [r|].
  2:{ cbn [fst raise]. repeat split; try discriminate.
      - intros (r & [=] & _).
      - intros e [= <-]. now left. }
  destruct (raise_for_status r) as [e0|[]] eqn:S.
  - apply raise_for_status_error in S as [F ->]. cbn [fst].
    repeat split.
    + intros [= <-]. now exists r.
    + intros (r' & [= <-] & _ & ->). reflexivity.
    + intros r' j [= <-] N. contradiction.
    + discriminate.
    + intros r' j t [= <-] N. contradiction.
    + intros e [= <-]. right; left. now eexists.
  - assert (N : ~ failed r).
    { intros F. rewrite (raise_for_status_failed _ F) in S. discriminate. }
    repeat split.
    + intros E. apply extract_error in E as [E | [E _]]; [|discriminate].
      unfold decoding_error in E.
      repeat (destruct E as [E|E]; [discriminate|]). discriminate.
    + intros (r' & [= <-] & F & _). contradiction.
    + intros r' j [= <-] _ J L. now rewrite (extract_lacking _ _ _ J L).
    + intros m E. apply extract_error in E as [E | [E (j & J & T)]].
      * unfold decoding_error in E.
        repeat (destruct E as [E|E]; [discriminate|]). discriminate.
      * exists r, j. repeat split; assumption.
    + intros r' j t [= <-] _ J T. rewrite (extract_text _ _ _ _ J T).
      cbn [fst].
      destruct (STOP_SEQUENCE self) as [seqs|];
        eexists; (split; [reflexivity|]); split.
      * discriminate.
      * intros seqs' [= <-]. split; [reflexivity|].
        apply fold_strip_stop_strips.
      * reflexivity.
      * discriminate.
    + intros e E. apply extract_error in E as [E | [E _]].
      * now right; right; right.
      * right; right; left. eexists. exact E.
Qed.

Lemma inference_errors_witness :
  fst (inference (Ex.reply Ex.r503) "Hi" 0 (__init__ kw.defaults))
  = inl (HTTPError 503) /\
  fst (inference (Ex.reply Ex.no_results) "Hi" 0 (__init__ kw.defaults))
  = inl (ValueError
           "Unexpected response format from Kobold API:  <Response [200]>") /\
  fst (inference (Ex.reply Ex.hello) "Say hello." 0 (__init__ Ex.stop_trim))
  = ok "Hello world.".
Proof.
  destruct (build_params_total kw.defaults "Hi" 0) as [d B].
  destruct (build_params_total Ex.stop_trim "Say hello." 0) as [d' B'].
  split; [|split].
  - apply (proj1 (inference_errors _ (Ex.reply Ex.r503) _ _ _ B) 503).
    exists Ex.r503. repeat split; unfold failed; simpl; lia.
  - apply (proj1 (proj2 (inference_errors _ (Ex.reply Ex.no_results) _ _ _ B))
             Ex.no_results (VDict [("detail", VStr "busy")])).
    + reflexivity.
    + unfold failed. simpl. lia.
    + reflexivity.
    + eexists. split; [reflexivity|]. left. reflexivity.
  - destruct (proj1 (proj2 (proj2 (proj2
               (inference_errors _ (Ex.reply Ex.hello) _ _ _ B'))))
               Ex.hello (Ex.body_text (VStr "Hello world. STOP"))
               "Hello world. STOP") as (out & E & _ & S).
    + reflexivity.
    + unfold failed. simpl. lia.
    + reflexivity.
    + do 3 eexists. repeat split; reflexivity.
    + rewrite E. destruct (S ["STOP"]) as [-> _]; reflexivity.
Defined.

(** A request that fails before any response is neither of the two. *)
Example offline_raises :
  inference Ex.offline "Hi" 0 (__init__ kw.defaults)
  = (raise RequestException, __init__ kw.defaults).
Proof. vm_compute. reflexivity. Qed.

(** C4 fails as stated: a successful response whose first result has a
    [text] field holding [null] makes [inference] raise neither a transport
    error nor a format error, and return no text. *)
Lemma two_error_kinds_counterexample :
  fst (inference (Ex.reply Ex.text_null) "Hi" 0 (__init__ kw.defaults))
  = inl AttributeError /\
  ~ failed Ex.text_null /\
  body Ex.text_null = Some (Ex.body_text VNone) /\
  results_text (Ex.body_text VNone) VNone.
Proof.
  split; [vm_compute; reflexivity|].
  split; [unfold failed; simpl; lia|].
  split; [reflexivity|].
  do 3 eexists. repeat split; reflexivity.
Qed.

(** ** TRIM_STOP *)

Lemma extract_reads_stop_sequence (r : Response) (s1 s2 : KoboldProvider) :
  STOP_SEQUENCE s1 = STOP_SEQUENCE s2 ->
  fst (extract r s1) = fst (extract r s2).
Proof.
  intros E. unfold extract, bind, lift, attr, ret.
  destruct (json r) as [e|j]; [reflexivity|].
  destruct (has_text j) as [e|[|]]; try reflexivity.
  destruct (rbind _ _) as [e|text]; [reflexivity|].
  rewrite E. now destruct (STOP_SEQUENCE s2).
Qed.

(** C10. Whether the stop sequences are removed from the returned text
    does not depend on TRIM_STOP: the decoding of a response gives the same
    result whatever the flag; the flag decides only whether the payload has
    the key [trim_stop], every other key being the same; and a client with
    stop sequences and TRIM_STOP disabled sends no [trim_stop] and still
    removes the stop sequences that the text ends in. *)
Theorem trim_stop_only_in_payload (self : KoboldProvider) (prompt : string)
    (tokens : Z) :
  convertible self ->
  (forall r b, fst (extract r (set_TRIM_STOP b self)) = fst (extract r self)) /\
  (forall b, exists d d',
      build_params prompt tokens self = (ok d, self) /\
      build_params prompt tokens (set_TRIM_STOP b self)
      = (ok d', set_TRIM_STOP b self) /\
      (forall k, k <> "trim_stop" -> dict_get k d' = dict_get k d) /\
      carries d' "trim_stop" (b = true /\ STOP_SEQUENCE self <> None)
        (VBool true)) /\
  (forall requests_post d r j t seqs,
      TRIM_STOP self = false -> STOP_SEQUENCE self = Some seqs ->
      Forall (fun s => s <> "") seqs ->
      build_params prompt tokens self = (ok d, self) ->
      requests_post (AI_PROVIDER_URI self ++ "/api/v1/generate") d = Some r ->
      ~ failed r -> body r = Some j -> results_text j (VStr t) ->
      dict_get "trim_stop" d = None /\
      exists out,
        inference requests_post prompt tokens self = (ok out, self) /\
        strips seqs (Str.strip t) out).
Proof.
  intros C. split; [|split].
  - intros r b. apply extract_reads_stop_sequence. now destruct self.
  - intros b.
    destruct self as [uri model pre suf mcl ml rp rpr so seed stop temp tfs
                        topa topk topp minp typ bad miro tau eta gram grs
                        mem trim].
    unfold convertible in C. fields.
    run_build C.
    do 2 eexists. split; [reflexivity|]. split; [reflexivity|].
    split.
    + intros k N. destruct stop; [|reflexivity].
      assert (E : String.eqb "trim_stop" k = false)
        by (apply String.eqb_neq; congruence).
      rewrite !dict_get_when. cbv beta.
      rewrite !(dict_get_set_other k "trim_stop") by exact E.
      now rewrite !if_same.
    + unfold carries. destruct stop, b; lookup; split; intros;
        first [reflexivity | exfalso; intuition congruence].
  - intros post d r j t seqs T Q F B P S J X. split.
    + assert (K : exists d0, build_params prompt tokens self = (ok d0, self)
                             /\ dict_get "trim_stop" d0 = None).
      { clear B. run_build C. eexists. split; [reflexivity|].
        rewrite Q, T. lookup. reflexivity. }
      destruct K as (d0 & B0 & K). rewrite B in B0.
      injection B0 as ->. exact K.
    + rewrite (inference_run _ _ _ _ _ B), P, (raise_for_status_passed _ S).
      rewrite (extract_text _ _ _ _ J X), Q.
      eexists. split; [reflexivity|]. now apply fold_strip_stop_strips.
Qed.

Lemma trim_stop_only_in_payload_witness :
  exists out,
    inference (Ex.reply Ex.hello) "Say hello." 0 (__init__ Ex.stop_no_trim)
    = (ok out, __init__ Ex.stop_no_trim) /\
    strips ["STOP"] (Str.strip "Hello world. STOP") out.
Proof.
  destruct (build_params_total Ex.stop_no_trim "Say hello." 0) as [d B].
  apply (proj2 (proj2 (trim_stop_only_in_payload (__init__ Ex.stop_no_trim)
                         "Say hello." 0 (init_convertible Ex.stop_no_trim)))
           (Ex.reply Ex.hello) d Ex.hello
           (Ex.body_text (VStr "Hello world. STOP")) "Hello world. STOP"
           ["STOP"]).
  - reflexivity.
  - reflexivity.
  - repeat constructor; discriminate.
  - exact B.
  - reflexivity.
  - unfold failed. simpl. lia.
  - reflexivity.
  - do 3 eexists. repeat split; reflexivity.
Defined.

(** Without TRIM_STOP the stop sequence is removed all the same. *)
Example hello_without_trim_stop :
  inference (Ex.reply Ex.hello) "Say hello." 0 (__init__ Ex.stop_no_trim)
  = (ok "Hello world.", __init__ Ex.stop_no_trim).
Proof. vm_compute. reflexivity. Qed.

(** * Further properties *)

(** ** The validators *)

(** A float equal to an integer literal is that integer exactly. *)
Lemma float_eq_0 (f : float) :
  num_eq (NFloat f) 0 = true -> exists s, f = S754_zero s.
Proof.
  unfold num_eq, num_compare_int, float_compare_int.
  destruct f as [s| | |s m e]; try discriminate.
  - intros _. now exists s.
  - destruct s; discriminate.
  - destruct (Z.leb_spec 0 e) as [E|E].
    + destruct (Z.compare_spec (cond_Zopp s (Z.pos m) * 2 ^ e) 0) as [H| |];
        try discriminate.
      intros _.
      assert (0 < 2 ^ e) by (apply Z.pow_pos_nonneg; lia).
      apply Z.mul_eq_0 in H as [H|H]; [destruct s; discriminate H | lia].
    + replace (0 * 2 ^ (- e)) with 0 by lia.
      destruct s; discriminate.
Qed.

Lemma float_eq_1_range (f : float) :
  num_eq (NFloat f) 1 = true -> in_unit_range (NFloat f).
Proof.
  unfold in_unit_range, num_eq, num_ge, num_le, num_compare_int,
    float_compare_int.
  destruct f as [s| | |s m e]; try discriminate.
  - destruct s; discriminate.
  - destruct (Z.leb_spec 0 e) as [E|E].
    + destruct (Z.compare_spec (cond_Zopp s (Z.pos m) * 2 ^ e) 1) as [H| |];
        try discriminate.
      intros _. rewrite H. split; reflexivity.
    + destruct (Z.compare_spec (cond_Zopp s (Z.pos m)) (1 * 2 ^ (- e)))
        as [H| |]; try discriminate.
      intros _.
      assert (0 < 2 ^ (- e)) by (apply Z.pow_pos_nonneg; lia).
      split; [|reflexivity].
      replace (0 * 2 ^ (- e)) with 0 by lia.
      destruct (Z.compare_spec (cond_Zopp s (Z.pos m)) 0); try reflexivity; lia.
Qed.

Lemma is_valid_float_range (v : pyval) (n : num) :
  is_valid_float v false = true -> v = VNum n -> in_unit_range n.
Proof.
  intros H ->. unfold in_unit_range.
  destruct n as [b|z|f].
  - now destruct b.
  - assert (E : z = 0 \/ z = 1).
    { revert H. unfold is_valid_float, py_eq_int, num_eq. simpl.
      destruct (Z.compare_spec z 0); [now left | |];
        (destruct (Z.compare_spec z 1); [now right | |]); discriminate. }
    destruct E as [-> | ->]; split; reflexivity.
  - unfold is_valid_float, py_eq_int in H.
    destruct (num_eq (NFloat f) 0) eqn:E0.
    + apply float_eq_0 in E0 as [s ->]. split; reflexivity.
    + destruct (num_eq (NFloat f) 1) eqn:E1.
      * now apply float_eq_1_range.
      * simpl in H. now apply andb_true_iff in H.
Qed.

(** X1. In ranged mode [is_valid_float] accepts exactly the numbers whose
    value lies between 0 and 1: the integers 0 and 1, both booleans and
    the floats of that interval; NaN, the other integers and every value
    that is not a number are rejected. *)
Theorem is_valid_float_ranged (v : pyval) :
  is_valid_float v false = true <-> exists n, v = VNum n /\ in_unit_range n.
Proof.
  unfold in_unit_range. split.
  - destruct v as [|[b|z|f]|s|l|d]; try discriminate.
    + intros _. exists (NBool b). split; [reflexivity|]. now destruct b.
    + intros H. exists (NInt z). split; [reflexivity|].
      assert (E : z = 0 \/ z = 1).
      { revert H. unfold is_valid_float, py_eq_int, num_eq. simpl.
        destruct (Z.compare_spec z 0); [now left | |];
          (destruct (Z.compare_spec z 1); [now right | |]); discriminate. }
      destruct E as [-> | ->]; split; reflexivity.
    + intros H. exists (NFloat f). split; [reflexivity|].
      unfold is_valid_float, py_eq_int in H.
      destruct (num_eq (NFloat f) 0) eqn:E0.
      * apply float_eq_0 in E0 as [s ->]. split; reflexivity.
      * destruct (num_eq (NFloat f) 1) eqn:E1.
        -- now apply float_eq_1_range.
        -- simpl in H. now apply andb_true_iff in H.
  - intros (n & -> & G & L).
    unfold is_valid_float, py_eq_int.
    destruct (num_eq n 0 || num_eq n 1) eqn:E; [reflexivity|].
    apply orb_false_iff in E as [E0 E1].
    destruct n as [b|z|f].
    + destruct b; discriminate.
    + unfold num_eq, num_ge, num_le in *. simpl in *.
      destruct (Z.compare_spec z 0); try discriminate;
        destruct (Z.compare_spec z 1); try discriminate; lia.
    + now rewrite G, L.
Qed.

Lemma is_valid_float_ranged_witness :
  is_valid_float (VFloat f0_92) false = true /\
  is_valid_float (VBool true) false = true.
Proof.
  split.
  - apply (proj2 (is_valid_float_ranged (VFloat f0_92))).
    exists (NFloat f0_92). repeat split; reflexivity.
  - apply (proj2 (is_valid_float_ranged (VBool true))).
    exists (NBool true). repeat split; reflexivity.
Defined.

(** X2. In unranged mode a float is accepted exactly when it is at least
    0, however large, while an integer is still accepted only when it is 0
    or 1: the integer 2 is rejected where the float 2.0 passes. *)
Theorem is_valid_float_unranged :
  (forall f, is_valid_float (VFloat f) true = num_ge (NFloat f) 0) /\
  (forall z, is_valid_float (VInt z) true = true <-> z = 0 \/ z = 1) /\
  (forall v, is_valid_float v false = true -> is_valid_float v true = true).
Proof.
  split; [|split].
  - intros f. unfold is_valid_float, py_eq_int, VFloat. cbv beta iota.
    destruct (num_eq (NFloat f) 0) eqn:E0.
    { apply float_eq_0 in E0 as [s ->]. reflexivity. }
    destruct (num_eq (NFloat f) 1) eqn:E1; [|reflexivity].
    apply float_eq_1_range in E1 as [G _]. now rewrite G.
  - intros z. unfold is_valid_float, py_eq_int, num_eq. simpl.
    destruct (Z.compare_spec z 0) as [->| |]; simpl.
    + split; [now left | reflexivity].
    + destruct (Z.compare_spec z 1) as [->| |]; simpl;
        (split; [discriminate | lia]).
    + destruct (Z.compare_spec z 1) as [->| |]; simpl;
        try (split; [discriminate | lia]).
      split; [now right | reflexivity].
  - intros v H. destruct v as [|n|s|l|d]; try discriminate H.
    destruct (is_valid_float_range _ n H eq_refl) as [G L].
    unfold is_valid_float, py_eq_int.
    destruct (num_eq n 0 || num_eq n 1) eqn:E; [reflexivity|].
    apply orb_false_iff in E as [E0 E1].
    destruct n as [b|z|f].
    + destruct b; discriminate.
    + unfold num_eq, num_ge, num_le in *. simpl in *.
      destruct (Z.compare_spec z 0); try discriminate;
        destruct (Z.compare_spec z 1); try discriminate; lia.
    + exact G.
Qed.

Lemma is_valid_float_unranged_witness :
  is_valid_float (VInt 1) true = true /\
  is_valid_float (VFloat f0_92) true = true.
Proof.
  split.
  - apply (proj2 (proj1 (proj2 is_valid_float_unranged) 1)). now right.
  - apply (proj2 (proj2 is_valid_float_unranged)). reflexivity.
Defined.

(** ** Invariants of the constructor *)

Lemma keep_num_in_range (v : pyval) (d : num) :
  in_unit_range d ->
  in_unit_range (keep_num v (is_valid_float v false) d).
Proof.
  intros D. destruct (is_valid_float v false) eqn:E.
  - destruct v as [|n|s|l|dd]; try discriminate E. simpl.
    now apply (is_valid_float_range (VNum n)).
  - now destruct v.
Qed.

(** Converting a number of the unit range to a float keeps it there. *)
Lemma py_float_in_range (n : num) :
  in_unit_range n ->
  exists f, py_float n = ok f /\ in_unit_range (NFloat f).
Proof.
  intros [G L]. destruct n as [b|z|f].
  - destruct b; eexists; repeat split; reflexivity.
  - assert (E : z = 0 \/ z = 1).
    { unfold num_ge, num_le in *. simpl in *.
      destruct (Z.compare_spec z 0); try discriminate;
        destruct (Z.compare_spec z 1); try discriminate; lia. }
    destruct E as [-> | ->]; eexists; repeat split; reflexivity.
  - exists f. repeat split; assumption.
Qed.

(** X3. Whatever the arguments, the six sampling coefficients of a client
    (temperature, tfs, top_a, top_p, min_p, typical) lie between 0 and 1,
    and so do the floats that the payload carries for them: a temperature
    of 1.5 can neither be stored nor sent. *)
Theorem coefficients_in_unit_range (a : kw.t) (prompt : string) (tokens : Z) :
  Forall in_unit_range (coefficients (__init__ a)) /\
  exists d,
    build_params prompt tokens (__init__ a) = (ok d, __init__ a) /\
    Forall (fun k => exists f, dict_get k d = Some (VFloat f) /\
                               in_unit_range (NFloat f))
      ["temperature"; "tfs"; "top_a"; "top_p"; "min_p"; "typical"].
Proof.
  assert (R : Forall in_unit_range (coefficients (__init__ a))).
  { unfold coefficients, __init__. fields.
    repeat (apply Forall_cons;
            [apply keep_num_in_range; split; reflexivity|]).
    apply Forall_nil. }
  split; [exact R|].
  pose proof (init_convertible a) as H.
  generalize dependent (__init__ a). intros self R H.
  unfold coefficients in R.
  inversion_clear R as [|? ? R1 R']. inversion_clear R' as [|? ? R2 R].
  inversion_clear R as [|? ? R3 R']. inversion_clear R' as [|? ? R4 R].
  inversion_clear R as [|? ? R5 R']. inversion_clear R' as [|? ? R6 _].
  apply py_float_in_range in R1 as (g1 & P1 & I1).
  apply py_float_in_range in R2 as (g2 & P2 & I2).
  apply py_float_in_range in R3 as (g3 & P3 & I3).
  apply py_float_in_range in R4 as (g4 & P4 & I4).
  apply py_float_in_range in R5 as (g5 & P5 & I5).
  apply py_float_in_range in R6 as (g6 & P6 & I6).
  run_build H.
  rewrite H2 in P1. injection P1 as <-.
  rewrite H3 in P2. injection P2 as <-.
  rewrite H4 in P3. injection P3 as <-.
  rewrite H6 in P4. injection P4 as <-.
  rewrite H7 in P5. injection P5 as <-.
  rewrite H8 in P6. injection P6 as <-.
  eexists. split; [reflexivity|].
  repeat (apply Forall_cons;
          [eexists; split;
           [destruct (STOP_SEQUENCE self); lookup; reflexivity
           | assumption]|]).
  apply Forall_nil.
Qed.

Lemma top_k_nonneg (v : pyval) :
  exists k, py_int (keep_num v (top_k_guard v) (NInt 100)) = ok k /\ 0 <= k.
Proof.
  destruct v as [|[b|z|f]|s|l|d]; simpl;
    try (exists 100; split; [reflexivity | lia]).
  - destruct (top_k_guard _); simpl; eexists; split; try reflexivity;
      try lia. now destruct b.
  - unfold top_k_guard, num_ge. simpl.
    destruct (Z.compare_spec z 0); simpl; eexists; split;
      try reflexivity; lia.
Qed.

Lemma rep_pen_stored (v : pyval) :
  exists f, keep_num v (rep_pen_guard v) (NFloat f1_1) = NFloat f /\
            num_ge (NFloat f) 1 = true.
Proof.
  destruct (rep_pen_guard v) eqn:E.
  - destruct v as [|[b|z|f]|s|l|d]; try discriminate E.
    exists f. split; [reflexivity | exact E].
  - exists f1_1. split; [now destruct v | reflexivity].
Qed.

(** X4. Whatever the arguments, the payload carries a repetition penalty
    that is a float of at least 1, a repetition-penalty range that is a
    non-negative integer, and a top_k that is a non-negative integer (a
    boolean top_k is sent as 0 or 1). *)
Theorem payload_bounds (a : kw.t) (prompt : string) (tokens : Z) :
  exists d f r k,
    build_params prompt tokens (__init__ a) = (ok d, __init__ a) /\
    dict_get "rep_pen" d = Some (VFloat f) /\ num_ge (NFloat f) 1 = true /\
    dict_get "rep_pen_range" d = Some (VInt r) /\ 0 <= r /\
    dict_get "top_k" d = Some (VInt k) /\ 0 <= k.
Proof.
  destruct (rep_pen_stored (kw.REP_PEN a)) as (f & Ef & Gf).
  destruct (top_k_nonneg (kw.TOP_K a)) as (k & Ek & Gk).
  assert (Gr : 0 <= REP_PEN_RANGE (__init__ a)).
  { simpl. destruct (Z.geb_spec (kw.REP_PEN_RANGE a) 0); lia. }
  assert (Ef' : py_float (REP_PEN (__init__ a)) = ok f).
  { simpl. now rewrite Ef. }
  assert (Ek' : py_int (TOP_K (__init__ a)) = ok k) by exact Ek.
  pose proof (init_convertible a) as H.
  generalize dependent (__init__ a). intros self Gr Ef' Ek' H.
  run_build H.
  rewrite H1 in Ef'. injection Ef' as ->.
  rewrite H5 in Ek'. injection Ek' as ->.
  eexists. exists f, (REP_PEN_RANGE self), k. split; [reflexivity|].
  repeat split; try assumption;
    destruct (STOP_SEQUENCE self); lookup; reflexivity.
Qed.

(** X5. A zero cannot be configured for the context length, the maximal
    length, the mirostat tau or the mirostat eta: each falls back to its
    default (4096, 80, 5.0, 0.1), while every other candidate, negative
    ones included, is stored as given. *)
Theorem zero_falls_back (a : kw.t) :
  let self := __init__ a in
  (MAX_CONTEXT_LENGTH self <> 0 /\
   MAX_CONTEXT_LENGTH self
   = if kw.MAX_CONTEXT_LENGTH a =? 0 then 4096 else kw.MAX_CONTEXT_LENGTH a) /\
  (MAX_LENGTH self <> 0 /\
   MAX_LENGTH self = if kw.MAX_LENGTH a =? 0 then 80 else kw.MAX_LENGTH a) /\
  (num_eq (NFloat (MIROSTAT_TAU self)) 0 = false /\
   MIROSTAT_TAU self
   = if num_eq (NFloat (kw.MIROSTAT_TAU a)) 0 then f5_0
     else kw.MIROSTAT_TAU a) /\
  (num_eq (NFloat (MIROSTAT_ETA self)) 0 = false /\
   MIROSTAT_ETA self
   = if num_eq (NFloat (kw.MIROSTAT_ETA a)) 0 then f0_1
     else kw.MIROSTAT_ETA a).
Proof.
  unfold __init__, num_truthy. fields. cbv zeta.
  repeat split.
  - destruct (Z.eqb_spec (kw.MAX_CONTEXT_LENGTH a) 0); simpl; lia.
  - now destruct (kw.MAX_CONTEXT_LENGTH a =? 0).
  - destruct (Z.eqb_spec (kw.MAX_LENGTH a) 0); simpl; lia.
  - now destruct (kw.MAX_LENGTH a =? 0).
  - now destruct (num_eq (NFloat (kw.MIROSTAT_TAU a)) 0) eqn:E.
  - now destruct (num_eq (NFloat (kw.MIROSTAT_TAU a)) 0).
  - now destruct (num_eq (NFloat (kw.MIROSTAT_ETA a)) 0) eqn:E.
  - now destruct (num_eq (NFloat (kw.MIROSTAT_ETA a)) 0).
Qed.

(** X6. The stored sampler order is always a list of integers, and every
    list of integers is stored as given, whatever its members and its
    length: the empty list and a list of sevens pass as well. *)
Theorem sample_order_is_int_list (a : kw.t) :
  (exists l, SAMPLE_ORDER (__init__ a) = VList l /\ all_int l) /\
  (forall l, kw.SAMPLE_ORDER a = VList l -> all_int l ->
             SAMPLE_ORDER (__init__ a) = VList l).
Proof.
  assert (K : forall l, kw.SAMPLE_ORDER a = VList l -> all_int l ->
                        SAMPLE_ORDER (__init__ a) = VList l).
  { intros l E F. simpl. rewrite E.
    rewrite is_valid_sample_order_int_list; [reflexivity|].
    apply forallb_forall. now apply Forall_forall. }
  split; [|exact K].
  destruct (kw.SAMPLE_ORDER a) as [| | |l|] eqn:E;
    try (eexists; split; [simpl; rewrite E; reflexivity
                         | repeat constructor]).
  destruct (forallb isinstance_int l) eqn:F.
  - exists l. assert (A : all_int l).
    { apply Forall_forall. now apply forallb_forall. }
    split; [now apply K | exact A].
  - eexists. split; [simpl; rewrite E; simpl; rewrite F; reflexivity
                    | repeat constructor].
Qed.

Lemma sample_order_is_int_list_witness :
  SAMPLE_ORDER (__init__ Ex.order_bad) = Ex.ints [7; 7].
Proof.
  apply (proj2 (sample_order_is_int_list Ex.order_bad)
           (map VInt [7; 7]) eq_refl).
  repeat constructor.
Defined.

(** ** The payload, from the arguments *)

Lemma nonempty_or_empty (s : string) :
  (if Str.nonempty s then s else "") = s.
Proof. now destruct s. Qed.

(** X7. Every payload has the thirteen base keys, under the names the code
    gives them: the maximal length is sent as [MAX_LENGTH], and the key
    [max_length] is never there. Its prompt is the prefix, the prompt
    and the suffix put end to end, with nothing between them. *)
Theorem base_payload (a : kw.t) (prompt : string) (tokens : Z) :
  exists d,
    build_params prompt tokens (__init__ a) = (ok d, __init__ a) /\
    Forall (fun k => dict_has k d = true) base_keys /\
    dict_get "max_length" d = None /\
    dict_get "prompt" d
    = Some (VStr (kw.PROMPT_PREFIX a ++ prompt ++ kw.PROMPT_SUFFIX a)).
Proof.
  assert (Ep : PROMPT_PREFIX (__init__ a) = kw.PROMPT_PREFIX a)
    by apply nonempty_or_empty.
  assert (Es : PROMPT_SUFFIX (__init__ a) = kw.PROMPT_SUFFIX a)
    by apply nonempty_or_empty.
  pose proof (init_convertible a) as H.
  generalize dependent (__init__ a). intros self Ep Es H.
  run_build H. rewrite Ep, Es.
  eexists. split; [reflexivity|].
  split; [|split].
  - unfold base_keys, dict_has.
    repeat (apply Forall_cons;
            [destruct (STOP_SEQUENCE self); lookup; reflexivity|]).
    apply Forall_nil.
  - destruct (STOP_SEQUENCE self); lookup; reflexivity.
  - destruct (STOP_SEQUENCE self); lookup; reflexivity.
Qed.

(** X8. The key [use_default_badwordsids] is in the payload exactly when
    the flag is enabled, and then holds [True]. *)
Theorem badwords_key (a : kw.t) (prompt : string) (tokens : Z) :
  exists d,
    build_params prompt tokens (__init__ a) = (ok d, __init__ a) /\
    carries d "use_default_badwordsids"
      (kw.USE_DEFAULT_BADWORDSIDS a = true) (VBool true).
Proof.
  assert (E : USE_DEFAULT_BADWORDSIDS (__init__ a)
              = kw.USE_DEFAULT_BADWORDSIDS a).
  { simpl. now destruct (kw.USE_DEFAULT_BADWORDSIDS a). }
  pose proof (init_convertible a) as H.
  generalize dependent (__init__ a). intros self E H.
  run_build H. rewrite E.
  eexists. split; [reflexivity|].
  unfold carries. destruct (STOP_SEQUENCE self); lookup;
    destruct (kw.USE_DEFAULT_BADWORDSIDS a); split; intros;
    first [reflexivity | congruence].
Qed.

Lemma badwords_key_witness :
  exists d,
    build_params "Hi" 0 (__init__ kw.defaults) = (ok d, __init__ kw.defaults)
    /\ dict_get "use_default_badwordsids" d = None.
Proof.
  destruct (badwords_key kw.defaults "Hi" 0) as (d & B & C).
  exists d. split; [exact B|]. apply (proj2 C). discriminate.
Defined.

(** X9. From the arguments to the payload: a seed is sent exactly when the
    candidate seed is above 0 and the candidate REP_PEN_RANGE lies in
    [-1, 999999]; what is sent is then the candidate seed. A valid seed
    is dropped when the range is out of these bounds. *)
Theorem seed_sent (a : kw.t) (prompt : string) (tokens : Z) :
  exists d,
    build_params prompt tokens (__init__ a) = (ok d, __init__ a) /\
    carries d "sampler_seed"
      (0 < kw.SAMPLER_SEED a /\ -1 <= kw.REP_PEN_RANGE a <= 999999)
      (VInt (kw.SAMPLER_SEED a)).
Proof.
  assert (E : SAMPLER_SEED (__init__ a)
              = if (-1 <=? kw.REP_PEN_RANGE a)
                   && (kw.REP_PEN_RANGE a <=? 999999)
                then kw.SAMPLER_SEED a else -1) by reflexivity.
  pose proof (init_convertible a) as H.
  generalize dependent (__init__ a). intros self E H.
  run_build H. rewrite E.
  eexists. split; [reflexivity|].
  unfold carries. destruct (STOP_SEQUENCE self); lookup;
    destruct (Z.leb_spec (-1) (kw.REP_PEN_RANGE a));
    destruct (Z.leb_spec (kw.REP_PEN_RANGE a) 999999); cbn [andb];
    try destruct (Z.gtb_spec (kw.SAMPLER_SEED a) 0);
    split; intros; first [reflexivity | exfalso; lia | exfalso; tauto].
Qed.

Lemma seed_sent_witness :
  (exists d,
      build_params "Hi" 0 (__init__ Ex.seed_range_in)
      = (ok d, __init__ Ex.seed_range_in) /\
      dict_get "sampler_seed" d = Some (VInt 42)) /\
  (exists d,
      build_params "Hi" 0 (__init__ Ex.seed_range_out)
      = (ok d, __init__ Ex.seed_range_out) /\
      dict_get "sampler_seed" d = None).
Proof.
  split.
  - destruct (seed_sent Ex.seed_range_in "Hi" 0) as (d & B & C).
    exists d. split; [exact B|]. apply (proj1 C). simpl. lia.
  - destruct (seed_sent Ex.seed_range_out "Hi" 0) as (d & B & C).
    exists d. split; [exact B|]. apply (proj2 C). simpl. lia.
Defined.

Lemma num_gt_not_eq (n : num) : num_eq n 0 = true -> num_gt n 0 = false.
Proof.
  unfold num_eq, num_gt. now destruct (num_compare_int n 0) as [[| |]|].
Qed.

(** X10. From the arguments to the payload: the three mirostat keys are
    sent exactly when the candidate MIROSTAT is above 0 (NaN and negative
    modes send nothing); [mirostat] then holds the candidate, and
    [mirostat_tau] and [mirostat_eta] hold the candidates unless these are
    zero, in which case 5.0 and 0.1 are sent. *)
Theorem mirostat_sent (a : kw.t) (prompt : string) (tokens : Z) :
  exists d,
    build_params prompt tokens (__init__ a) = (ok d, __init__ a) /\
    let on := num_gt (kw.MIROSTAT a) 0 = true in
    carries d "mirostat" on (VNum (kw.MIROSTAT a)) /\
    carries d "mirostat_tau" on
      (VFloat (if num_eq (NFloat (kw.MIROSTAT_TAU a)) 0 then f5_0
               else kw.MIROSTAT_TAU a)) /\
    carries d "mirostat_eta" on
      (VFloat (if num_eq (NFloat (kw.MIROSTAT_ETA a)) 0 then f0_1
               else kw.MIROSTAT_ETA a)).
Proof.
  assert (Em : MIROSTAT (__init__ a)
               = if num_eq (kw.MIROSTAT a) 0 then NInt 0 else kw.MIROSTAT a).
  { simpl. unfold num_truthy. now destruct (num_eq (kw.MIROSTAT a) 0). }
  assert (Et : MIROSTAT_TAU (__init__ a)
               = if num_eq (NFloat (kw.MIROSTAT_TAU a)) 0 then f5_0
                 else kw.MIROSTAT_TAU a).
  { simpl. unfold num_truthy.
    now destruct (num_eq (NFloat (kw.MIROSTAT_TAU a)) 0). }
  assert (Ee : MIROSTAT_ETA (__init__ a)
               = if num_eq (NFloat (kw.MIROSTAT_ETA a)) 0 then f0_1
                 else kw.MIROSTAT_ETA a).
  { simpl. unfold num_truthy.
    now destruct (num_eq (NFloat (kw.MIROSTAT_ETA a)) 0). }
  pose proof (init_convertible a) as H.
  generalize dependent (__init__ a). intros self Em Et Ee H.
  run_build H. rewrite Em, Et, Ee.
  eexists. split; [reflexivity|].
  cbv zeta. unfold carries.
  destruct (num_eq (kw.MIROSTAT a) 0) eqn:Z0.
  - rewrite (num_gt_not_eq _ Z0).
    repeat split; intros; try discriminate;
      destruct (STOP_SEQUENCE self); lookup; reflexivity.
  - destruct (num_gt (kw.MIROSTAT a) 0);
      repeat split; intros; try congruence;
      destruct (STOP_SEQUENCE self); lookup; reflexivity.
Qed.

Lemma mirostat_sent_witness :
  exists d,
    build_params "Hi" 0 (__init__ Ex.active) = (ok d, __init__ Ex.active) /\
    dict_get "mirostat" d = Some (VInt 2) /\
    dict_get "mirostat_tau" d = Some (VFloat f5_0).
Proof.
  destruct (mirostat_sent Ex.active "Hi" 0) as (d & B & M & T & _).
  exists d. split; [exact B|]. split.
  - apply (proj1 M). reflexivity.
  - apply (proj1 T). reflexivity.
Defined.

(** ** The base URL *)

Lemma slash_not_api (u : string) : Str.endswith (u ++ "/") "/api" = false.
Proof.
  destruct (Str.endswith (u ++ "/") "/api") eqn:E; [|reflexivity].
  exfalso. apply StrFacts.endswith_iff in E as [w E].
  assert (A : w ++ "/api" = (w ++ "/ap") ++ "i").
  { clear. induction w as [|c w IH]; simpl; [reflexivity | now rewrite IH]. }
  rewrite A in E.
  assert (L : String.length u = String.length (w ++ "/ap")).
  { apply (f_equal String.length) in E.
    rewrite (StrFacts.length_app u), (StrFacts.length_app (w ++ "/ap")) in E.
    simpl in E. lia. }
  apply (f_equal (Str.drop (String.length u))) in E.
  rewrite StrFacts.drop_app in E.
  rewrite L, StrFacts.drop_app in E. discriminate.
Qed.

Lemma clean_url_api (u : string) : clean_url (u ++ "/api") = u.
Proof.
  unfold clean_url. rewrite StrFacts.endswith_app.
  apply (StrFacts.slice_to_app u "/api"). discriminate.
Qed.

Lemma clean_url_slash (u : string) : clean_url (u ++ "/") = u.
Proof.
  unfold clean_url. rewrite slash_not_api, StrFacts.endswith_app.
  apply (StrFacts.slice_to_app u "/"). discriminate.
Qed.

Lemma clean_url_plain (u : string) :
  (forall w, u <> w ++ "/api") -> (forall w, u <> w ++ "/") ->
  clean_url u = u.
Proof.
  intros N1 N2. unfold clean_url.
  destruct (Str.endswith u "/api") eqn:E1.
  { apply StrFacts.endswith_iff in E1 as [w E]. now destruct (N1 w). }
  destruct (Str.endswith u "/") eqn:E2; [|reflexivity].
  apply StrFacts.endswith_iff in E2 as [w E]. now destruct (N2 w).
Qed.

Lemma app_nonempty (u v : string) : u <> "" -> u ++ v <> "".
Proof. destruct u; [congruence | discriminate]. Qed.

(** X11. A base URL may be given bare, with a trailing slash or with a
    trailing "/api": the three spellings give the same client address,
    hence the same endpoint. The default host replaces an empty
    candidate only: the candidates "/" and "/api" leave an empty base, and
    no other candidate does. *)
Theorem base_url_spellings :
  (forall (u : string) (a1 a2 a3 : kw.t),
      u <> "" -> (forall w, u <> w ++ "/api") -> (forall w, u <> w ++ "/") ->
      kw.AI_PROVIDER_URI a1 = u ->
      kw.AI_PROVIDER_URI a2 = u ++ "/" ->
      kw.AI_PROVIDER_URI a3 = u ++ "/api" ->
      AI_PROVIDER_URI (__init__ a1) = u /\
      AI_PROVIDER_URI (__init__ a2) = u /\
      AI_PROVIDER_URI (__init__ a3) = u) /\
  (forall a : kw.t,
      AI_PROVIDER_URI (__init__ a) = "" <->
      kw.AI_PROVIDER_URI a = "/" \/ kw.AI_PROVIDER_URI a = "/api").
Proof.
  split.
  - intros u a1 a2 a3 N N1 N2 E1 E2 E3.
    unfold __init__. fields. rewrite E1, E2, E3.
    assert (T : forall s, s <> "" -> Str.nonempty s = true)
      by (intros [|c s]; [congruence | reflexivity]).
    rewrite (T u N), !(T _ (app_nonempty u _ N)).
    rewrite clean_url_slash, clean_url_api, (clean_url_plain u N1 N2).
    repeat split.
  - intros a. unfold __init__. fields.
    destruct (kw.AI_PROVIDER_URI a) as [|c s] eqn:E; cbn [Str.nonempty].
    { split; [discriminate | intros [?|?]; discriminate]. }
    assert (N : kw.AI_PROVIDER_URI a <> "") by (rewrite E; discriminate).
    rewrite <- E. clear E c s. revert N.
    generalize (kw.AI_PROVIDER_URI a). intros u N.
    split.
    + intros C.
      destruct (Str.endswith u "/api") eqn:E1.
      { apply StrFacts.endswith_iff in E1 as [w ->].
        rewrite clean_url_api in C. subst w. now right. }
      destruct (Str.endswith u "/") eqn:E2.
      { apply StrFacts.endswith_iff in E2 as [w ->].
        rewrite clean_url_slash in C. subst w. now left. }
      unfold clean_url in C. rewrite E1, E2 in C. contradiction.
    + intros [-> | ->]; reflexivity.
Qed.

Lemma base_url_spellings_witness :
  AI_PROVIDER_URI (__init__ (with_uri "http://localhost:5001")) 
  = "http://localhost:5001" /\
  AI_PROVIDER_URI (__init__ (with_uri "http://localhost:5001/"))
  = "http://localhost:5001" /\
  AI_PROVIDER_URI (__init__ (with_uri "http://localhost:5001/api"))
  = "http://localhost:5001".
Proof.
  apply (proj1 base_url_spellings "http://localhost:5001").
  - discriminate.
  - apply StrFacts.endswith_false. reflexivity.
  - apply StrFacts.endswith_false. reflexivity.
  - reflexivity.
  - reflexivity.
  - reflexivity.
Defined.

(** X12. [inference] contacts one address only: the endpoint of the
    client's base URL. Two transports that agree there make it behave the
    same, whatever they answer elsewhere. *)
Theorem single_endpoint (self : KoboldProvider) (post1 post2 : transport)
    (prompt : string) (tokens : Z) :
  (forall d, post1 (endpoint (AI_PROVIDER_URI self)) d
             = post2 (endpoint (AI_PROVIDER_URI self)) d) ->
  inference post1 prompt tokens self = inference post2 prompt tokens self.
Proof.
  intros A.
  destruct (build_params prompt tokens self) as [[e|d] self'] eqn:B.
  - unfold inference, bind. now rewrite B.
  - pose proof (build_params_preserves prompt tokens self) as P.
    rewrite B in P. simpl in P. subst self'.
    rewrite (inference_run post1 _ _ _ _ B), (inference_run post2 _ _ _ _ B).
    unfold endpoint in A. now rewrite A.
Qed.

Lemma single_endpoint_witness :
  inference (Ex.reply Ex.hello) "Hi" 0 (__init__ kw.defaults)
  = inference
      (only_at "http://host.docker.internal:5001/api/v1/generate" Ex.hello)
      "Hi" 0 (__init__ kw.defaults).
Proof.
  apply single_endpoint. intros d. reflexivity.
Defined.

(** ** The returned text *)

Lemma rstrip_prefix (s : string) : exists v, s = Str.rstrip s ++ v.
Proof.
  induction s as [|c r [v IH]]; simpl.
  - now exists "".
  - destruct (Str.rstrip r) as [|c' r'] eqn:E.
    + destruct (Str.isspace c).
      * now exists (String c r).
      * exists r. reflexivity.
    + exists v. simpl in *. now rewrite <- IH.
Qed.

Lemma rstrip_no_trailing_space (s : string) : ~ ends_with_space (Str.rstrip s).
Proof.
  induction s as [|c r IH]; simpl.
  - intros (u & c & E & _). destruct u; discriminate.
  - destruct (Str.rstrip r) as [|c' r'] eqn:E.
    + destruct (Str.isspace c) eqn:S.
      * intros (u & c0 & E0 & _). destruct u; discriminate.
      * intros (u & c0 & E0 & S0). destruct u as [|c1 u].
        -- simpl in E0. injection E0 as <-. congruence.
        -- simpl in E0. injection E0 as _ E0. destruct u; discriminate.
    + intros (u & c0 & E0 & S0). destruct u as [|c1 u].
      * simpl in E0. discriminate.
      * simpl in E0. injection E0 as _ E0. apply IH. now exists u, c0.
Qed.

Lemma lstrip_no_leading_space (s : string) : ~ starts_with_space (Str.lstrip s).
Proof.
  induction s as [|c r IH]; simpl.
  - intros (c & r & E & _). discriminate.
  - destruct (Str.isspace c) eqn:S; [exact IH|].
    intros (c0 & r0 & [= <- <-] & S0). congruence.
Qed.

Lemma prefix_no_leading_space (p v : string) :
  ~ starts_with_space (p ++ v) -> ~ starts_with_space p.
Proof.
  intros N (c & r & -> & S). apply N. now exists c, (r ++ v).
Qed.

Lemma slice_to_prefix (s : string) (k : Z) : exists v, s = Str.slice_to s k ++ v.
Proof.
  unfold Str.slice_to. eexists. symmetry. apply StrFacts.take_drop.
Qed.

Lemma str_app_assoc (a b c : string) : (a ++ b) ++ c = a ++ b ++ c.
Proof. induction a as [|x a IH]; simpl; [reflexivity | now rewrite IH]. Qed.

Lemma strip_stop_prefix (text s : string) :
  exists v, text = strip_stop text s ++ v.
Proof.
  unfold strip_stop. destruct (Str.endswith text s).
  - destruct (slice_to_prefix text (- Str.len s)) as [v1 E1].
    destruct (rstrip_prefix (Str.slice_to text (- Str.len s))) as [v2 E2].
    exists (v2 ++ v1). rewrite <- str_app_assoc, <- E2. exact E1.
  - exists "". now rewrite StrFacts.app_empty_r.
Qed.

Lemma strip_stop_no_trailing_space (text s : string) :
  ~ ends_with_space text -> ~ ends_with_space (strip_stop text s).
Proof.
  intros N. unfold strip_stop. destruct (Str.endswith text s).
  - apply rstrip_no_trailing_space.
  - exact N.
Qed.

Lemma fold_strip_stop_trimmed (seqs : list string) (text : string) :
  ~ ends_with_space text ->
  (exists v, text = fold_left strip_stop seqs text ++ v) /\
  ~ ends_with_space (fold_left strip_stop seqs text).
Proof.
  revert text. induction seqs as [|s rest IH]; intros text N; cbn [fold_left].
  - split; [exists ""; now rewrite StrFacts.app_empty_r | exact N].
  - destruct (IH (strip_stop text s) (strip_stop_no_trailing_space _ s N))
      as [[v E] T].
    split; [|exact T].
    destruct (strip_stop_prefix text s) as [w W].
    exists (v ++ w). rewrite <- str_app_assoc, <- E. exact W.
Qed.

(** What [inference] returns for a successful response that has a text. *)
Lemma inference_text (self : KoboldProvider) (requests_post : transport)
    (prompt : string) (tokens : Z) (d : dict) (r : Response) (j : pyval)
    (t : string) :
  build_params prompt tokens self = (ok d, self) ->
  requests_post (AI_PROVIDER_URI self ++ "/api/v1/generate") d = Some r ->
  ~ failed r -> body r = Some j -> results_text j (VStr t) ->
  inference requests_post prompt tokens self
  = (ok match STOP_SEQUENCE self with
        | Some seqs => fold_left strip_stop seqs (Str.strip t)
        | None => Str.strip t
        end, self).
Proof.
  intros B P S J T.
  rewrite (inference_run _ _ _ _ _ B), P, (raise_for_status_passed _ S).
  apply (extract_text _ _ _ _ J T).
Qed.

(** X13. Whatever stop sequences are configured, the text that [inference]
    returns is a prefix of the response text trimmed on both sides, and it
    neither begins nor ends with a whitespace character: nothing is ever
    added or changed inside the text. *)
Theorem returned_text_trimmed (self : KoboldProvider)
    (requests_post : transport) (prompt : string) (tokens : Z) (d : dict)
    (r : Response) (j : pyval) (t : string) :
  build_params prompt tokens self = (ok d, self) ->
  requests_post (AI_PROVIDER_URI self ++ "/api/v1/generate") d = Some r ->
  ~ failed r -> body r = Some j -> results_text j (VStr t) ->
  exists out v,
    inference requests_post prompt tokens self = (ok out, self) /\
    Str.strip t = out ++ v /\
    ~ starts_with_space out /\ ~ ends_with_space out.
Proof.
  intros B P S J T. rewrite (inference_text _ _ _ _ _ _ _ _ B P S J T).
  assert (Nt : ~ ends_with_space (Str.strip t))
    by apply rstrip_no_trailing_space.
  assert (Nl : ~ starts_with_space (Str.strip t)).
  { unfold Str.strip. destruct (rstrip_prefix (Str.lstrip t)) as [v E].
    apply (prefix_no_leading_space _ v). rewrite <- E.
    apply lstrip_no_leading_space. }
  destruct (STOP_SEQUENCE self) as [seqs|].
  - destruct (fold_strip_stop_trimmed seqs _ Nt) as [[v E] N].
    exists (fold_left strip_stop seqs (Str.strip t)), v.
    repeat split; try assumption.
    apply (prefix_no_leading_space _ v). now rewrite <- E.
  - exists (Str.strip t), "".
    repeat split; try assumption. now rewrite StrFacts.app_empty_r.
Qed.

Lemma returned_text_trimmed_witness :
  exists out v,
    inference (Ex.reply Ex.done_end_stop) "Go on." 0 (__init__ Ex.stop_two)
    = (ok out, __init__ Ex.stop_two) /\
    Str.strip "Done. END STOP" = out ++ v /\
    ~ starts_with_space out /\ ~ ends_with_space out.
Proof.
  destruct (build_params_total Ex.stop_two "Go on." 0) as [d B].
  apply (returned_text_trimmed (__init__ Ex.stop_two)
           (Ex.reply Ex.done_end_stop) "Go on." 0 d Ex.done_end_stop
           (Ex.body_text (VStr "Done. END STOP")) "Done. END STOP").
  - exact B.
  - reflexivity.
  - unfold failed. simpl. lia.
  - reflexivity.
  - do 3 eexists. repeat split; reflexivity.
Defined.

Lemma fold_strip_stop_none (seqs : list string) (text : string) :
  (forall s, In s seqs -> forall u, text <> u ++ s) ->
  fold_left strip_stop seqs text = text.
Proof.
  induction seqs as [|s rest IH]; intros N; cbn [fold_left]; [reflexivity|].
  rewrite strip_stop_keep by (apply N; now left).
  apply IH. intros s' I. apply N. now right.
Qed.

(** X14. When no configured stop sequence is a suffix of the trimmed
    response text, and when no stop sequences are configured at all,
    [inference] returns the response text trimmed on both sides and
    nothing else happens to it. *)
Theorem text_without_stop_returned (self : KoboldProvider)
    (requests_post : transport) (prompt : string) (tokens : Z) (d : dict)
    (r : Response) (j : pyval) (t : string) :
  build_params prompt tokens self = (ok d, self) ->
  requests_post (AI_PROVIDER_URI self ++ "/api/v1/generate") d = Some r ->
  ~ failed r -> body r = Some j -> results_text j (VStr t) ->
  (forall seqs s, STOP_SEQUENCE self = Some seqs -> In s seqs ->
                  forall u, Str.strip t <> u ++ s) ->
  inference requests_post prompt tokens self = (ok (Str.strip t), self).
Proof.
  intros B P S J T N. rewrite (inference_text _ _ _ _ _ _ _ _ B P S J T).
  destruct (STOP_SEQUENCE self) as [seqs|]; [|reflexivity].
  rewrite fold_strip_stop_none; [reflexivity|].
  intros s I. now apply (N seqs).
Qed.

Lemma text_without_stop_returned_witness :
  inference (Ex.reply (Ex.r200 (Ex.body_text (VStr "  All done.  "))))
    "Go on." 0 (__init__ Ex.stop_two)
  = (ok "All done.", __init__ Ex.stop_two).
Proof.
  destruct (build_params_total Ex.stop_two "Go on." 0) as [d B].
  apply (text_without_stop_returned (__init__ Ex.stop_two)
           (Ex.reply (Ex.r200 (Ex.body_text (VStr "  All done.  "))))
           "Go on." 0 d (Ex.r200 (Ex.body_text (VStr "  All done.  ")))
           (Ex.body_text (VStr "  All done.  ")) "  All done.  ").
  - exact B.
  - reflexivity.
  - unfold failed. simpl. lia.
  - reflexivity.
  - do 3 eexists. repeat split; reflexivity.
  - intros seqs s [= <-] [<- | [<- | []]];
      apply StrFacts.endswith_false; reflexivity.
Defined.

Lemma strip_stop_empty (text : string) : strip_stop text "" = "".
Proof.
  unfold strip_stop.
  replace (Str.endswith text "") with true.
  - now rewrite StrFacts.slice_to_zero.
  - symmetry. apply StrFacts.endswith_iff. exists text.
    now rewrite StrFacts.app_empty_r.
Qed.

Lemma strip_stop_of_empty (s : string) : strip_stop "" s = "".
Proof.
  unfold strip_stop. destruct (Str.endswith "" s); [|reflexivity].
  unfold Str.slice_to.
  now destruct (Z.to_nat (if - Str.len s <? 0
                          then Z.max 0 (Str.len "" + - Str.len s)
                          else Z.min (- Str.len s) (Str.len ""))).
Qed.

Lemma fold_strip_stop_of_empty (seqs : list string) :
  fold_left strip_stop seqs "" = "".
Proof.
  induction seqs as [|s rest IH]; cbn [fold_left]; [reflexivity|].
  now rewrite strip_stop_of_empty.
Qed.

(** X15. An empty string among the stop sequences wipes the result: every
    text ends in the empty string, and removing its last zero characters
    is written [text[:-0]], which is the empty text. [inference] then
    returns "" whatever the response text. *)
Theorem empty_stop_sequence_clears (self : KoboldProvider)
    (requests_post : transport) (prompt : string) (tokens : Z) (d : dict)
    (r : Response) (j : pyval) (t : string) (seqs : list string) :
  build_params prompt tokens self = (ok d, self) ->
  requests_post (AI_PROVIDER_URI self ++ "/api/v1/generate") d = Some r ->
  ~ failed r -> body r = Some j -> results_text j (VStr t) ->
  STOP_SEQUENCE self = Some seqs -> In "" seqs ->
  inference requests_post prompt tokens self = (ok "", self).
Proof.
  intros B P S J T Q I. rewrite (inference_text _ _ _ _ _ _ _ _ B P S J T), Q.
  do 2 f_equal. generalize (Str.strip t). clear -I.
  induction seqs as [|s rest IH]; intros text; [destruct I|].
  cbn [fold_left]. destruct I as [-> | I].
  - rewrite strip_stop_empty. apply fold_strip_stop_of_empty.
  - now apply IH.
Qed.

Lemma empty_stop_sequence_clears_witness :
  inference (Ex.reply Ex.hello) "Say hello." 0 (__init__ stop_with_empty)
  = (ok "", __init__ stop_with_empty).
Proof.
  destruct (build_params_total stop_with_empty "Say hello." 0) as [d B].
  apply (empty_stop_sequence_clears (__init__ stop_with_empty)
           (Ex.reply Ex.hello) "Say hello." 0 d Ex.hello
           (Ex.body_text (VStr "Hello world. STOP")) "Hello world. STOP"
           ["STOP"; ""]).
  - exact B.
  - reflexivity.
  - unfold failed. simpl. lia.
  - reflexivity.
  - do 3 eexists. repeat split; reflexivity.
  - reflexivity.
  - right. now left.
Defined.

(** X16. Of a successful response only the text of the first result is
    used: the other results, the other fields of the first result, the
    other fields of the body and the status itself have no effect on what
    [inference] returns. *)
Theorem first_result_only (self : KoboldProvider) (r1 r2 : Response)
    (j1 j2 : pyval) (t : string) :
  body r1 = Some j1 -> results_text j1 (VStr t) ->
  body r2 = Some j2 -> results_text j2 (VStr t) ->
  extract r1 self = extract r2 self.
Proof.
  intros J1 T1 J2 T2.
  now rewrite (extract_text _ _ _ _ J1 T1), (extract_text _ _ _ _ J2 T2).
Qed.

Lemma first_result_only_witness :
  extract
    (mkResponse 201
       (Some (VDict [("model", VStr "x");
                     ("results",
                      VList [VDict [("finish", VStr "stop");
                                    ("text", VStr "Hello world. STOP")];
                             VDict [("text", VStr "Second.")]])])))
    (__init__ Ex.stop_trim)
  = extract Ex.hello (__init__ Ex.stop_trim).
Proof.
  eapply (first_result_only _ _ _ _ _ "Hello world. STOP").
  - reflexivity.
  - do 3 eexists. repeat split; reflexivity.
  - reflexivity.
  - do 3 eexists. repeat split; reflexivity.
Defined.

(** ** Bodies of another shape *)

Lemma existsb_str_absent (key : string) (l : list pyval) :
  ~ In (VStr key) l ->
  existsb (fun x => match x with
                    | VStr s => String.eqb s key
                    | _ => false
                    end) l = false.
Proof.
  induction l as [|x l IH]; intros N; [reflexivity|]. simpl.
  rewrite IH by (intros I; apply N; now right).
  destruct x as [| |s| |]; try reflexivity.
  destruct (String.eqb_spec s key) as [->|]; [|reflexivity].
  exfalso. apply N. now left.
Qed.

Lemma text_not_in_char (c : ascii) :
  Str.contains "text" (String c "") = false.
Proof.
  cbn -[ascii_dec]. now destruct (ascii_dec "t" c).
Qed.

(** X17. What a successful response of another shape gives. A body that
    is null or a number raises TypeError, and so does an object whose
    [results] is null or a number. An array that does not hold the string
    "results" raises the format error, and so does an object whose
    [results] is a string, whatever the string. An object whose [results]
    is itself a non-empty object raises KeyError. *)
Theorem other_bodies (self : KoboldProvider) (r : Response) (j : pyval) :
  body r = Some j ->
  ((j = VNone \/ exists n, j = VNum n) ->
   fst (extract r self) = inl TypeError) /\
  (forall x, j = body_results x -> (x = VNone \/ exists n, x = VNum n) ->
             fst (extract r self) = inl TypeError) /\
  (forall l, j = VList l -> ~ In (VStr "results") l ->
             fst (extract r self) = inl (format_error r)) /\
  (forall s, j = body_results (VStr s) ->
             fst (extract r self) = inl (format_error r)) /\
  (forall k v rest, j = body_results (VDict ((k, v) :: rest)) ->
                    fst (extract r self) = inl KeyError).
Proof.
  intros J. unfold extract, bind, lift, json. rewrite J.
  cbn [ok raise]. repeat split.
  - intros [-> | [n ->]]; reflexivity.
  - intros x -> [-> | [n ->]]; reflexivity.
  - intros l -> N. unfold has_text. cbn [rbind py_in ok].
    now rewrite existsb_str_absent.
  - intros s ->. destruct s as [|c s]; [reflexivity|].
    unfold has_text, body_results.
    cbn [rbind py_in py_getitem py_len py_getitem0 ok dict_has dict_get
         String.eqb Ascii.eqb Bool.eqb].
    replace (Str.len (String c s) >? 0) with true by reflexivity.
    now rewrite text_not_in_char.
  - intros k v rest ->. reflexivity.
Qed.

Lemma other_bodies_witness :
  fst (extract (Ex.r200 (VList [])) (__init__ kw.defaults))
  = inl (format_error (Ex.r200 (VList []))) /\
  fst (extract (Ex.r200 (body_results (VStr "busy"))) (__init__ kw.defaults))
  = inl (format_error (Ex.r200 (body_results (VStr "busy")))).
Proof.
  split.
  - apply (proj1 (proj2 (proj2 (other_bodies (__init__ kw.defaults)
                                  (Ex.r200 (VList [])) (VList []) eq_refl)))
             [] eq_refl).
    intros [].
  - apply (proj1 (proj2 (proj2 (proj2
             (other_bodies (__init__ kw.defaults)
                (Ex.r200 (body_results (VStr "busy")))
                (body_results (VStr "busy")) eq_refl))))
             "busy" eq_refl).
Defined.
